(** * eIH digital library: filter/search evaluator, delete, and external
    result normalization

    Shallow embedding of
      - [src/UI/script.js]: [applyFilters], [performSearch],
        [displaySearchResults], [performOverlaySearch], [deleteLibraryItem],
        [GoogleBooksService.transformResults] (the [isbn] field);
      - the server-side services [googleBooksService] and [geminiService]:
        [GoogleBooksService.extractISBN], [GeminiService.parseGeminiResponse],
        [GeminiService.fallbackTextParsing].

    The JavaScript built-ins the code calls ([parseInt], [ToNumber],
    [String.prototype.includes], [split], [trim], [toLowerCase], the regular
    expressions [/\{[\s\S]*\}/] and [/\d{4}/], [JSON.parse], [Array.prototype.find],
    [findIndex], [splice], [filter]) are modelled in [Module JS] and
    [Module JSON], the two regular expressions and the array methods next
    to the functions that call them.  Scope of that model:
      - a JS string is a [string] of 8-bit code units; [toLowerCase] and the
        white-space class act on the ASCII range;
      - a JS Number is [NaN], a signed infinity, or an exact rational, and
        there is no negative zero; [parseInt] rounds the integer it reads to
        the nearest double, as the Number it returns is; the value of a
        numeric literal ([ToNumber] of a string, a number in a JSON text) is
        kept exact (0.1 is one tenth);
      - objects and arrays are values, not references: [===] on two of them
        is [false]. *)

From Stdlib Require Import ZArith QArith List String Ascii Bool Lia.
Import ListNotations.
Local Open Scope string_scope.

(* ================================================================= *)
(** ** JavaScript values and built-ins *)

Module JS.

Inductive number : Type :=
| NaN
| Inf (negative : bool)
| Num (q : Q).

#[warnings="-register-all"]
Inductive jsval : Type :=
| JUndefined
| JNull
| JBool (b : bool)
| JNum (n : number)
| JStr (s : string)
| JArr (elems : list jsval)
| JObj (props : list (string * jsval)).

Definition dquote : ascii := ascii_of_nat 34.
Definition newline : ascii := ascii_of_nat 10.

(** WhiteSpace and LineTerminator code points below 128:
    TAB, LF, VT, FF, CR, SP. *)
Definition isWhiteSpace (c : ascii) : bool :=
  let n := nat_of_ascii c in
  ((9 <=? n)%nat && (n <=? 13)%nat) || (n =? 32)%nat.

Definition isDigit (c : ascii) : bool :=
  let n := nat_of_ascii c in (48 <=? n)%nat && (n <=? 57)%nat.

(** Value of a character as a digit in radix up to 36. *)
Definition digitVal (c : ascii) : option Z :=
  let n := nat_of_ascii c in
  if (48 <=? n)%nat && (n <=? 57)%nat then Some (Z.of_nat (n - 48))
  else if (97 <=? n)%nat && (n <=? 122)%nat then Some (Z.of_nat (n - 87))
  else if (65 <=? n)%nat && (n <=? 90)%nat then Some (Z.of_nat (n - 55))
  else None.

Definition lowerChar (c : ascii) : ascii :=
  let n := nat_of_ascii c in
  if (65 <=? n)%nat && (n <=? 90)%nat then ascii_of_nat (n + 32) else c.

(** [s.toLowerCase()] *)
Fixpoint toLowerCase (s : string) : string :=
  match s with
  | EmptyString => EmptyString
  | String c r => String (lowerChar c) (toLowerCase r)
  end.

(** [s.includes(sub)] *)
Fixpoint includes (s sub : string) : bool :=
  String.prefix sub s ||
  match s with
  | EmptyString => false
  | String _ r => includes r sub
  end.

(** [s.split(sep)] for a one-character separator. *)
Fixpoint split (sep : ascii) (s : string) : list string :=
  match s with
  | EmptyString => [EmptyString]
  | String c r =>
      if Ascii.eqb c sep then EmptyString :: split sep r
      else match split sep r with
           | [] => [String c EmptyString]
           | h :: t => String c h :: t
           end
  end.

Fixpoint trimStart (s : string) : string :=
  match s with
  | EmptyString => EmptyString
  | String c r => if isWhiteSpace c then trimStart r else s
  end.

Fixpoint trimEnd (s : string) : string :=
  match s with
  | EmptyString => EmptyString
  | String c r =>
      match trimEnd r with
      | EmptyString => if isWhiteSpace c then EmptyString else String c EmptyString
      | r' => String c r'
      end
  end.

(** [s.trim()] *)
Definition trim (s : string) : string := trimEnd (trimStart s).

(** *** Numbers *)

Definition number_lt (a b : number) : bool :=
  match a, b with
  | NaN, _ | _, NaN => false
  | Inf true, Inf true => false
  | Inf true, _ => true
  | _, Inf true => false
  | Inf false, _ => false
  | Num _, Inf false => true
  | Num x, Num y => negb (Qle_bool y x)
  end.

Definition number_gt (a b : number) : bool := number_lt b a.

Definition number_eq (a b : number) : bool :=
  match a, b with
  | Num x, Num y => Qeq_bool x y
  | Inf s, Inf t => Bool.eqb s t
  | _, _ => false
  end.


Definition ofZ (z : Z) : number := Num (inject_Z z).

(** The Number value of a mathematical integer: the integer itself up to
    2^53 in absolute value; beyond, the nearest value with a 53-bit
    significand, a tie going to the even significand; and an infinity once
    that reaches 2^1024. *)
Definition integerToNumber (z : Z) : number :=
  let a := Z.abs z in
  if (a <=? 2 ^ 53)%Z then ofZ z
  else
    let k := (Z.log2 a - 52)%Z in
    let q := Z.shiftr a k in
    let r := (a - Z.shiftl q k)%Z in
    let half := Z.shiftl 1 (k - 1) in
    let q' := if (half <? r)%Z || ((r =? half)%Z && Z.odd q)
              then (q + 1)%Z else q in
    let m := Z.shiftl q' k in
    if (2 ^ 1024 <=? m)%Z then Inf (z <? 0)%Z
    else ofZ (Z.sgn z * m).

(** Longest prefix of decimal digits, and what follows it. *)
Fixpoint spanDigits (s : string) : string * string :=
  match s with
  | EmptyString => (EmptyString, EmptyString)
  | String c r =>
      if isDigit c then let '(d, rest) := spanDigits r in (String c d, rest)
      else (EmptyString, s)
  end.

(** Value of the longest prefix of radix-[radix] digits; [None] when that
    prefix is empty. *)
Fixpoint digitsPrefix (radix : Z) (s : string) (acc : option Z) : option Z :=
  match s with
  | EmptyString => acc
  | String c r =>
      match digitVal c with
      | Some d =>
          if (d <? radix)%Z
          then digitsPrefix radix r
                 (Some (match acc with Some a => a * radix + d | None => d end)%Z)
          else acc
      | None => acc
      end
  end.

(** All of [s] is made of radix-[radix] digits. *)
Fixpoint allDigits (radix : Z) (s : string) : bool :=
  match s with
  | EmptyString => true
  | String c r =>
      match digitVal c with
      | Some d => (d <? radix)%Z && allDigits radix r
      | None => false
      end
  end.

Definition decValue (ds : string) : Z :=
  match digitsPrefix 10 ds None with Some z => z | None => 0%Z end.

Definition stripSign (s : string) : Z * string :=
  match s with
  | String "-"%char r => ((-1)%Z, r)
  | String "+"%char r => (1%Z, r)
  | _ => (1%Z, s)
  end.

Definition isHexPrefix (s : string) : option string :=
  match s with
  | String "0"%char (String "x"%char r) => Some r
  | String "0"%char (String "X"%char r) => Some r
  | _ => None
  end.

(** [parseInt(s)] with no radix argument, on a string: the Number value of
    the integer the digits spell.  (For more than 20 significant decimal
    digits the standard lets an engine read the later ones as zeros; the
    integer is rounded as it stands here.) *)
Definition parseIntStr (s : string) : number :=
  let '(sign, r) := stripSign (trimStart s) in
  let '(radix, digits) :=
    match isHexPrefix r with
    | Some h => (16%Z, h)
    | None => (10%Z, r)
    end in
  match digitsPrefix radix digits None with
  | Some z => integerToNumber (sign * z)
  | None => NaN
  end.

Definition pow10 (e : Z) : Q := Qpower (10 # 1) e.

(** StrDecimalLiteral without its sign: digits, optional fraction, optional
    exponent, and nothing after. *)
Definition StrUnsignedDecimalLiteral (s : string) : option Q :=
  let '(ip, r1) := spanDigits s in
  let '(fp, r2) :=
    match r1 with
    | String "."%char r => spanDigits r
    | _ => (EmptyString, r1)
    end in
  if (ip =? "") && (fp =? "") then None
  else
    let mant := decValue (ip ++ fp) in
    let fl := Z.of_nat (String.length fp) in
    match r2 with
    | EmptyString => Some (Qred (inject_Z mant * pow10 (- fl)))
    | String e r3 =>
        if Ascii.eqb e "e" || Ascii.eqb e "E" then
          let '(sg, r4) := stripSign r3 in
          let '(ed, r5) := spanDigits r4 in
          if (ed =? "") || negb (r5 =? "") then None
          else Some (Qred (inject_Z mant * pow10 (sg * decValue ed - fl)))
        else None
    end.

Definition nonDecimalLiteral (s : string) : option (Z * string) :=
  match s with
  | String "0"%char (String p r) =>
      if Ascii.eqb p "x" || Ascii.eqb p "X" then Some (16%Z, r)
      else if Ascii.eqb p "o" || Ascii.eqb p "O" then Some (8%Z, r)
      else if Ascii.eqb p "b" || Ascii.eqb p "B" then Some (2%Z, r)
      else None
  | _ => None
  end.

(** StringToNumber: the numeric value of a string, as used by [<] and
    unary conversions. *)
Definition StringToNumber (s : string) : number :=
  let t := trim s in
  if t =? "" then ofZ 0
  else
    match nonDecimalLiteral t with
    | Some (radix, ds) =>
        if negb (ds =? "") && allDigits radix ds
        then match digitsPrefix radix ds None with
             | Some z => ofZ z
             | None => NaN
             end
        else NaN
    | None =>
        let '(sign, r) := stripSign t in
        if r =? "Infinity" then Inf (sign <? 0)%Z
        else match StrUnsignedDecimalLiteral r with
             | Some q => Num (Qred (inject_Z sign * q))
             | None => NaN
             end
    end.

(** *** Number::toString, radix 10 *)

Definition digitChar (d : Z) : ascii := ascii_of_nat (48 + Z.to_nat d).

Fixpoint digitsOf (fuel : nat) (z : Z) (acc : string) : string :=
  let acc' := String (digitChar (z mod 10)) acc in
  match fuel with
  | O => acc'
  | S f => if (z <? 10)%Z then acc' else digitsOf f (z / 10) acc'
  end.

(** Decimal digits of a non-negative integer. *)
Definition ZToString (z : Z) : string :=
  digitsOf (Z.to_nat (Z.log2 z)) z EmptyString.

(** [a / b = m / 10^j] with the least [j]: the search stops after [fuel]
    steps, which is enough whenever [b] divides a power of ten. *)
Fixpoint decimalOf (fuel : nat) (a b j : Z) : Z * Z :=
  if (a mod b =? 0)%Z then ((a / b)%Z, j)
  else match fuel with
       | O => ((a / b)%Z, j)
       | S f => decimalOf f (10 * a) b (j + 1)
       end.

Fixpoint zeros (n : nat) : string :=
  match n with O => EmptyString | S k => String "0"%char (zeros k) end.

Fixpoint stripTrailingZeros (s : string) : string :=
  match s with
  | EmptyString => EmptyString
  | String c r =>
      match stripTrailingZeros r with
      | EmptyString => if Ascii.eqb c "0" then EmptyString else String c EmptyString
      | r' => String c r'
      end
  end.

Definition exponentForm (digits : string) (e : Z) : string :=
  let s := stripTrailingZeros digits in
  let mantissa :=
    match s with
    | EmptyString => "0"
    | String d EmptyString => String d EmptyString
    | String d r => String d (String "."%char r)
    end in
  mantissa ++ "e" ++ (if (e <? 0)%Z then "-" else "+") ++ ZToString (Z.abs e).

(** Number::toString of a positive rational [a / b]. *)
Definition positiveToString (a b : Z) : string :=
  let '(m, j) := decimalOf (S (Z.to_nat (Z.log2 b))) a b 0 in
  let D := ZToString m in
  let n := (Z.of_nat (String.length D) - j)%Z in
  if (21 <? n)%Z then exponentForm D (n - 1)
  else if (j =? 0)%Z then D
  else if (0 <? n)%Z then
    substring 0 (Z.to_nat n) D ++ "." ++
    substring (Z.to_nat n) (String.length D - Z.to_nat n) D
  else if (-6 <? n)%Z then "0." ++ zeros (Z.to_nat (- n)) ++ D
  else exponentForm D (n - 1).

Definition NumberToString (x : number) : string :=
  match x with
  | NaN => "NaN"
  | Inf true => "-Infinity"
  | Inf false => "Infinity"
  | Num q =>
      let a := Qnum q in
      let b := Z.pos (Qden q) in
      if (a =? 0)%Z then "0"
      else if (a <? 0)%Z then "-" ++ positiveToString (- a) b
      else positiveToString a b
  end.

(** *** Conversions on values *)

(** ToString; an array is its elements joined by commas, [undefined] and
    [null] elements giving the empty string. *)
Fixpoint ToString (v : jsval) : string :=
  match v with
  | JUndefined => "undefined"
  | JNull => "null"
  | JBool true => "true"
  | JBool false => "false"
  | JNum n => NumberToString n
  | JStr s => s
  | JArr l =>
      (fix join (l : list jsval) : string :=
         match l with
         | [] => EmptyString
         | x :: r =>
             let e := match x with
                      | JUndefined | JNull => EmptyString
                      | _ => ToString x
                      end in
             match r with
             | [] => e
             | _ :: _ => e ++ "," ++ join r
             end
         end) l
  | JObj _ => "[object Object]"
  end.

(** ToBoolean *)
Definition truthy (v : jsval) : bool :=
  match v with
  | JUndefined | JNull => false
  | JBool b => b
  | JNum NaN => false
  | JNum (Inf _) => true
  | JNum (Num q) => negb (Qeq_bool q 0)
  | JStr s => negb (s =? "")
  | JArr _ | JObj _ => true
  end.

(** ToNumber *)
Definition ToNumber (v : jsval) : number :=
  match v with
  | JUndefined => NaN
  | JNull => ofZ 0
  | JBool true => ofZ 1
  | JBool false => ofZ 0
  | JNum n => n
  | JStr s => StringToNumber s
  | JArr _ | JObj _ => StringToNumber (ToString v)
  end.

(** [parseInt(v)]: the argument is converted to a string first. *)
Definition parseInt (v : jsval) : number := parseIntStr (ToString v).

(** [a < b] and [a > b] where [b] is already a Number. *)
Definition lt_num (a : jsval) (b : number) : bool := number_lt (ToNumber a) b.

(** [a === b] *)
Definition strictEq (a b : jsval) : bool :=
  match a, b with
  | JUndefined, JUndefined => true
  | JNull, JNull => true
  | JBool x, JBool y => Bool.eqb x y
  | JNum x, JNum y => number_eq x y
  | JStr x, JStr y => (x =? y)
  | _, _ => false
  end.

(** [a || b] *)
Definition or_else (a b : jsval) : jsval := if truthy a then a else b.

(** Own property of a parsed object: the last binding of the key wins. *)
Fixpoint getProp (props : list (string * jsval)) (k : string) : jsval :=
  match props with
  | [] => JUndefined
  | (k', v) :: r =>
      match getProp r k with
      | JUndefined => if k' =? k then v else JUndefined
      | w => w
      end
  end.

End JS.

(* ================================================================= *)
(** ** JSON.parse *)

Module JSON.
Import JS.

(** JSON white space: space, TAB, LF, CR. *)
Definition isJsonWs (c : ascii) : bool :=
  let n := nat_of_ascii c in
  (n =? 32)%nat || (n =? 9)%nat || (n =? 10)%nat || (n =? 13)%nat.

Fixpoint skipWs (s : string) : string :=
  match s with
  | String c r => if isJsonWs c then skipWs r else s
  | EmptyString => EmptyString
  end.

Definition hex4 (a b c d : ascii) : option Z :=
  match digitVal a, digitVal b, digitVal c, digitVal d with
  | Some x, Some y, Some z, Some w =>
      if (x <? 16)%Z && (y <? 16)%Z && (z <? 16)%Z && (w <? 16)%Z
      then Some (((x * 16 + y) * 16 + z) * 16 + w)%Z
      else None
  | _, _, _, _ => None
  end.

Definition byte (z : Z) : ascii := ascii_of_nat (Z.to_nat z).

(** A [\uXXXX] code unit, stored as its UTF-8 bytes. *)
Definition encodeUnit (u : Z) : string :=
  if (u <? 128)%Z then String (byte u) EmptyString
  else if (u <? 2048)%Z then
    String (byte (192 + u / 64)) (String (byte (128 + u mod 64)) EmptyString)
  else
    String (byte (224 + u / 4096))
      (String (byte (128 + (u / 64) mod 64))
         (String (byte (128 + u mod 64)) EmptyString)).

Definition simpleEscape (c : ascii) : option ascii :=
  if Ascii.eqb c dquote then Some dquote
  else if Ascii.eqb c "\" then Some "\"%char
  else if Ascii.eqb c "/" then Some "/"%char
  else if Ascii.eqb c "b" then Some (ascii_of_nat 8)
  else if Ascii.eqb c "f" then Some (ascii_of_nat 12)
  else if Ascii.eqb c "n" then Some (ascii_of_nat 10)
  else if Ascii.eqb c "r" then Some (ascii_of_nat 13)
  else if Ascii.eqb c "t" then Some (ascii_of_nat 9)
  else None.

(** The characters of a string literal after its opening quote, up to and
    including the closing quote; returns the decoded string and the rest. *)
Fixpoint parseStringBody (s : string) : option (string * string) :=
  match s with
  | EmptyString => None
  | String c r =>
      if Ascii.eqb c dquote then Some (EmptyString, r)
      else if Ascii.eqb c "\" then
        match r with
        | String "u"%char (String h1 (String h2 (String h3 (String h4 r')))) =>
            match hex4 h1 h2 h3 h4, parseStringBody r' with
            | Some u, Some (t, rest) => Some (encodeUnit u ++ t, rest)
            | _, _ => None
            end
        | String e r' =>
            match simpleEscape e, parseStringBody r' with
            | Some x, Some (t, rest) => Some (String x t, rest)
            | _, _ => None
            end
        | EmptyString => None
        end
      else if (nat_of_ascii c <? 32)%nat then None
      else
        match parseStringBody r with
        | Some (t, rest) => Some (String c t, rest)
        | None => None
        end
  end.

(** A number literal: [-]? int frac? exp?, where int has no leading zero. *)
Definition parseNumber (s : string) : option (number * string) :=
  let '(sign, r0) :=
    match s with
    | String "-"%char r => ((-1)%Z, r)
    | _ => (1%Z, s)
    end in
  let '(ip, r1) := spanDigits r0 in
  let leadingZero :=
    match ip with
    | String "0"%char (String _ _) => true
    | _ => false
    end in
  if (ip =? "") || leadingZero then None
  else
    let fracPart :=
      match r1 with
      | String "."%char r =>
          let '(fp, r2) := spanDigits r in
          if fp =? "" then None else Some (fp, r2)
      | _ => Some (EmptyString, r1)
      end in
    match fracPart with
    | None => None
    | Some (fp, r2) =>
        let expPart :=
          match r2 with
          | String e r =>
              if Ascii.eqb e "e" || Ascii.eqb e "E" then
                let '(sg, r3) := stripSign r in
                let '(ed, r4) := spanDigits r3 in
                if ed =? "" then None else Some ((sg * decValue ed)%Z, r4)
              else Some (0%Z, r2)
          | EmptyString => Some (0%Z, r2)
          end in
        match expPart with
        | None => None
        | Some (ex, rest) =>
            let mant := (sign * decValue (ip ++ fp))%Z in
            let fl := Z.of_nat (String.length fp) in
            Some (Num (Qred (inject_Z mant * pow10 (ex - fl))), rest)
        end
    end.

Definition expect (lit : string) (v : jsval) (s : string)
  : option (jsval * string) :=
  if String.prefix lit s
  then Some (v, substring (String.length lit)
                          (String.length s - String.length lit) s)
  else None.

(** Recursive descent over value, array elements and object members.  Every
    second call at the latest consumes a character, so a fuel of twice the
    length of the text is never exhausted. *)
Fixpoint parseValue (fuel : nat) (s : string) : option (jsval * string) :=
  match fuel with
  | O => None
  | S f =>
      match skipWs s with
      | EmptyString => None
      | String c r =>
          if Ascii.eqb c "{" then
            match skipWs r with
            | String "}"%char r' => Some (JObj [], r')
            | _ =>
                match parseMembers f r with
                | Some (kvs, rest) => Some (JObj kvs, rest)
                | None => None
                end
            end
          else if Ascii.eqb c "[" then
            match skipWs r with
            | String "]"%char r' => Some (JArr [], r')
            | _ =>
                match parseElements f r with
                | Some (vs, rest) => Some (JArr vs, rest)
                | None => None
                end
            end
          else if Ascii.eqb c dquote then
            match parseStringBody r with
            | Some (t, rest) => Some (JStr t, rest)
            | None => None
            end
          else if Ascii.eqb c "t" then expect "true" (JBool true) (String c r)
          else if Ascii.eqb c "f" then expect "false" (JBool false) (String c r)
          else if Ascii.eqb c "n" then expect "null" JNull (String c r)
          else
            match parseNumber (String c r) with
            | Some (n, rest) => Some (JNum n, rest)
            | None => None
            end
      end
  end

with parseElements (fuel : nat) (s : string) : option (list jsval * string) :=
  match fuel with
  | O => None
  | S f =>
      match parseValue f s with
      | None => None
      | Some (v, r) =>
          match skipWs r with
          | String ","%char r' =>
              match parseElements f r' with
              | Some (vs, rest) => Some (v :: vs, rest)
              | None => None
              end
          | String "]"%char r' => Some ([v], r')
          | _ => None
          end
      end
  end

with parseMembers (fuel : nat) (s : string)
  : option (list (string * jsval) * string) :=
  match fuel with
  | O => None
  | S f =>
      match skipWs s with
      | String c r =>
          if Ascii.eqb c dquote then
            match parseStringBody r with
            | None => None
            | Some (k, r1) =>
                match skipWs r1 with
                | String ":"%char r2 =>
                    match parseValue f r2 with
                    | None => None
                    | Some (v, r3) =>
                        match skipWs r3 with
                        | String ","%char r4 =>
                            match parseMembers f r4 with
                            | Some (kvs, rest) => Some ((k, v) :: kvs, rest)
                            | None => None
                            end
                        | String "}"%char r4 => Some ([(k, v)], r4)
                        | _ => None
                        end
                    end
                | _ => None
                end
            end
          else None
      | EmptyString => None
      end
  end.

(** [JSON.parse(text)]: [None] stands for the SyntaxError it throws. *)
Definition parse (text : string) : option jsval :=
  match parseValue (2 * String.length text + 2) text with
  | Some (v, rest) =>
      match skipWs rest with
      | EmptyString => Some v
      | String _ _ => None
      end
  | None => None
  end.

End JSON.

(* ================================================================= *)
(** ** Completion of a call: normal return or a thrown error *)

Module Completion.

Inductive Error : Type :=
| TypeError
| SyntaxError
| RangeError.

Inductive t (A : Type) : Type :=
| Normal (a : A)
| Throw (e : Error).

Arguments Normal {A} a.
Arguments Throw {A} e.

Definition bind {A B : Type} (c : t A) (k : A -> t B) : t B :=
  match c with
  | Normal a => k a
  | Throw e => Throw e
  end.

Definition completes {A : Type} (c : t A) : bool :=
  match c with Normal _ => true | Throw _ => false end.

(** [xs.filter(pred)] for a callback that may throw: elements are visited
    left to right and the first throw aborts the call. *)
Fixpoint filterM {A : Type} (pred : A -> t bool) (xs : list A) : t (list A) :=
  match xs with
  | [] => Normal []
  | x :: r =>
      bind (pred x) (fun keep =>
      bind (filterM pred r) (fun r' =>
      Normal (if keep then x :: r' else r')))
  end.

(** [a || b] on boolean operands, [b] evaluated only when [a] is false. *)
Definition orElse (a : t bool) (b : t bool) : t bool :=
  bind a (fun x => if x then Normal true else b).

End Completion.

(* ================================================================= *)
(** ** src/UI/script.js *)

Module Library.
Import JS.
Import Completion.

(** A library item is a plain object; a field the object does not have
    reads as [JUndefined]. *)
Module Item.
Record t : Type := mk {
  id : jsval;
  title : jsval;
  author : jsval;
  type : jsval;
  category : jsval;
  publishingYear : jsval;
  year : jsval;
  status : jsval;
  language : jsval;
  difficulty : jsval;
  rating : jsval
}.
End Item.
Definition LibraryItem : Type := Item.t.

(** [activeFilters]: each value is the [data-value] attribute of the
    clicked option, or ['all']. *)
Module Filters.
Record t : Type := mk {
  type : string;
  status : string;
  rating : string;
  difficulty : string;
  language : string;
  category : string
}.
End Filters.

Definition allFilters : Filters.t :=
  Filters.mk "all" "all" "all" "all" "all" "all".

(** [field !== value] for a string [value]. *)
Definition strictNeqStr (field : jsval) (value : string) : bool :=
  negb (strictEq field (JStr value)).

(** The rating block of the filter callback: [true] when it executes
    [return false]. *)
Definition ratingRejects (item : LibraryItem) (ratingFilter : string) : bool :=
  let ratingThreshold := parseIntStr ratingFilter in
  negb (truthy (Item.rating item)) || lt_num (Item.rating item) ratingThreshold.

(** The difficulty block of the filter callback. *)
Definition difficultyRejects (item : LibraryItem) (difficultyFilter : string)
  : bool :=
  if negb (truthy (Item.difficulty item)) then true
  else
    let difficulty := parseInt (Item.difficulty item) in
    if (difficultyFilter =? "easy")
       && (number_lt difficulty (ofZ 1) || number_gt difficulty (ofZ 3))
    then true
    else if (difficultyFilter =? "medium")
       && (number_lt difficulty (ofZ 4) || number_gt difficulty (ofZ 7))
    then true
    else if (difficultyFilter =? "hard")
       && (number_lt difficulty (ofZ 8) || number_gt difficulty (ofZ 10))
    then true
    else false.

(** The callback passed to [libraryItems.filter] in [applyFilters]. *)
Definition passesFilters (activeFilters : Filters.t) (item : LibraryItem)
  : bool :=
  if negb (Filters.type activeFilters =? "all")
     && strictNeqStr (Item.type item) (Filters.type activeFilters)
  then false
  else if negb (Filters.status activeFilters =? "all")
     && strictNeqStr (Item.status item) (Filters.status activeFilters)
  then false
  else if negb (Filters.rating activeFilters =? "all")
     && ratingRejects item (Filters.rating activeFilters)
  then false
  else if negb (Filters.difficulty activeFilters =? "all")
     && difficultyRejects item (Filters.difficulty activeFilters)
  then false
  else if negb (Filters.language activeFilters =? "all")
     && strictNeqStr (Item.language item) (Filters.language activeFilters)
  then false
  else if negb (Filters.category activeFilters =? "all")
     && strictNeqStr (Item.category item) (Filters.category activeFilters)
  then false
  else true.

(** *** Page state *)

Record User : Type := { user_id : string; email : string }.

(** Calls into the renderers and the notification banner, newest first.
    The renderers ([updateMasonryDisplay], [updatePlanetDisplay],
    [updateLibraryDisplay]) only read the list they are given; what they
    draw is not computed here, the call and its argument are recorded.
    A renderer can throw: [applyFilters], which calls the planet renderer
    in a way that makes it throw, carries the outcome of the call (below);
    the functions that call [updateLibraryDisplay] are modelled for a call
    that returns. *)
Inductive Effect : Type :=
| UpdateMasonryDisplay (items : list LibraryItem)
| UpdatePlanetDisplay (items : list LibraryItem)
| UpdateLibraryDisplay
| ShowNotification (message : string) (kind : string).

(** Content of the [#search-results] container. *)
Inductive ResultsPane : Type :=
| EnterSearchTerm
| NoItemsFound
| ResultItems (results : list LibraryItem).

(** A [.masonry-item] node found in the document by
    [querySelectorAll('.masonry-item')], reduced to its class list. *)
Record MasonryNode : Type := { classList : list string }.

Record Page : Type := mkPage {
  libraryItems : list LibraryItem;
  activeFilters : Filters.t;
  currentUser : option User;
  supabase : bool;
  currentView : option string;
  digitalLibrary : option (list LibraryItem);
  searchResults : ResultsPane;
  masonryItems : list MasonryNode;
  effects : list Effect
}.

Definition emit (e : Effect) (p : Page) : Page :=
  mkPage (libraryItems p) (activeFilters p) (currentUser p) (supabase p)
         (currentView p) (digitalLibrary p) (searchResults p) (masonryItems p)
         (e :: effects p).

Definition setLibraryItems (items : list LibraryItem) (p : Page) : Page :=
  mkPage items (activeFilters p) (currentUser p) (supabase p)
         (currentView p) (digitalLibrary p) (searchResults p) (masonryItems p)
         (effects p).

Definition setDigitalLibrary (items : list LibraryItem) (p : Page) : Page :=
  mkPage (libraryItems p) (activeFilters p) (currentUser p) (supabase p)
         (currentView p) (Some items) (searchResults p) (masonryItems p)
         (effects p).

Definition setSearchResults (r : ResultsPane) (p : Page) : Page :=
  mkPage (libraryItems p) (activeFilters p) (currentUser p) (supabase p)
         (currentView p) (digitalLibrary p) r (masonryItems p) (effects p).

Definition setMasonryItems (nodes : list MasonryNode) (p : Page) : Page :=
  mkPage (libraryItems p) (activeFilters p) (currentUser p) (supabase p)
         (currentView p) (digitalLibrary p) (searchResults p) nodes (effects p).

(** *** applyFilters *)

(** What the two renderers [applyFilters] calls depend on besides the list
    they are given. *)
Record Display : Type := {
  (** [document.getElementById('knowledge-planet')] finds the element. *)
  planet : bool;
  (** How [updateMasonryDisplay(items)] ends: [None] when it returns,
      the error when it throws.  It writes into the [#masonry-grid] element
      and, for a list that is not empty, builds the HTML of each item with
      [createMasonryItem], which calls [toLowerCase], [trim], [substring]
      and [repeat] on fields of the item, some of them not among the fields
      of [Item.t] ([coverImage], [coverUrl]). *)
  updateMasonryDisplay : list LibraryItem -> option Error
}.

(** How [updatePlanetDisplay(itemsToDisplay)] ends.  Without the planet
    element it returns at once, and on an empty list after writing its
    message.  Otherwise the first turn of the [forEach] calls
    [createPlanetParticle(item, index, items.length)]: the third parameter
    of that function is [planet], and its last statement,
    [planet.appendChild(particle)], calls a property a Number does not
    have.  The statements before it that can throw ([item.type.toLowerCase()],
    [(item.coverImage || item.coverUrl).trim()], [item.title.length],
    [item.title.substring(0, 15)]) throw a TypeError as well. *)
Definition updatePlanetDisplay (d : Display) (itemsToDisplay : list LibraryItem)
  : option Error :=
  if negb (planet d) then None
  else match itemsToDisplay with
       | [] => None
       | _ :: _ => Some TypeError
       end.

Definition filteredItems (p : Page) : list LibraryItem :=
  filter (passesFilters (activeFilters p)) (libraryItems p).

Definition filterValues (f : Filters.t) : list string :=
  [Filters.type f; Filters.status f; Filters.rating f;
   Filters.difficulty f; Filters.language f; Filters.category f].

Definition activeFilterCount (f : Filters.t) : nat :=
  List.length (filter (fun v => negb (v =? "all")) (filterValues f)).

Definition lengthString {A : Type} (l : list A) : string :=
  NumberToString (ofZ (Z.of_nat (List.length l))).

(** [localStorage.getItem('currentView') || 'masonry'] *)
Definition savedView (p : Page) : string :=
  match currentView p with
  | Some v => if v =? "" then "masonry" else v
  | None => "masonry"
  end.

(** The outcome of [applyFilters()]: the page after the call, and the error
    if the renderer threw one; the statements after the renderer call are
    run only when it returns. *)
Definition applyFilters (d : Display) (p : Page) : Page * option Error :=
  let shown := filteredItems p in
  let '(p1, thrown) :=
    if savedView p =? "masonry"
    then (emit (UpdateMasonryDisplay shown) p, updateMasonryDisplay d shown)
    else (emit (UpdatePlanetDisplay shown) p, updatePlanetDisplay d shown) in
  match thrown with
  | Some e => (p1, Some e)
  | None =>
      if (0 <? activeFilterCount (activeFilters p))%nat
      then (emit (ShowNotification
                    ("Showing " ++ lengthString shown ++ " of "
                     ++ lengthString (libraryItems p) ++ " items") "info") p1,
            None)
      else (p1, None)
  end.

(** The list handed to the renderer by the last call. *)
Definition lastRendered (p : Page) : option (list LibraryItem) :=
  (fix go (es : list Effect) : option (list LibraryItem) :=
     match es with
     | [] => None
     | UpdateMasonryDisplay l :: _ => Some l
     | UpdatePlanetDisplay l :: _ => Some l
     | UpdateLibraryDisplay :: _ => Some (libraryItems p)
     | ShowNotification _ _ :: r => go r
     end) (effects p).

(** *** performSearch and displaySearchResults *)

(** [field.toLowerCase().includes(searchTerm)]: reading [toLowerCase] off
    [undefined] or [null], or calling it on a value that has no such
    method, throws a TypeError. *)
Definition lowerIncludes (field : jsval) (searchTerm : string) : Completion.t bool :=
  match field with
  | JStr s => Normal (includes (toLowerCase s) searchTerm)
  | _ => Throw TypeError
  end.

Definition searchCallback (searchTerm : string) (item : LibraryItem)
  : Completion.t bool :=
  orElse (lowerIncludes (Item.title item) searchTerm)
    (orElse (lowerIncludes (Item.author item) searchTerm)
       (orElse (lowerIncludes (Item.category item) searchTerm)
          (lowerIncludes (Item.type item) searchTerm))).

Definition displaySearchResults (results : list LibraryItem) (p : Page) : Page :=
  match results with
  | [] => setSearchResults NoItemsFound p
  | _ :: _ => setSearchResults (ResultItems results) p
  end.

(** [performSearch(searchTerm, resultsContainer)], the container being the
    [#search-results] element.  A throw leaves the page as it was. *)
Definition performSearch (searchTerm : string) (p : Page) : Completion.t Page :=
  if searchTerm =? "" then Normal (setSearchResults EnterSearchTerm p)
  else
    bind (filterM (searchCallback searchTerm) (libraryItems p)) (fun results =>
    Normal (displaySearchResults results p)).

(** What the two listeners of [setupSearch] pass on: the input value,
    lower-cased and trimmed. *)
Definition searchInputHandler (value : string) (p : Page) : Completion.t Page :=
  performSearch (trim (toLowerCase value)) p.

(** *** performOverlaySearch *)

Definition classList_remove (c : string) (n : MasonryNode) : MasonryNode :=
  {| classList := filter (fun x => negb (x =? c)) (classList n) |}.

Definition classList_add (c : string) (n : MasonryNode) : MasonryNode :=
  if existsb (fun x => x =? c) (classList n) then n
  else {| classList := classList n ++ [c] |}.

Definition hasClass (c : string) (n : MasonryNode) : bool :=
  existsb (fun x => x =? c) (classList n).

(** [field?.toLowerCase().includes(searchTerm)], as a truth value. *)
Definition optLowerIncludes (field : jsval) (searchTerm : string)
  : Completion.t bool :=
  match field with
  | JUndefined | JNull => Normal false
  | JStr s => Normal (includes (toLowerCase s) searchTerm)
  | _ => Throw TypeError
  end.

(** [field?.toString().includes(searchTerm)], as a truth value. *)
Definition optToStringIncludes (field : jsval) (searchTerm : string) : bool :=
  match field with
  | JUndefined | JNull => false
  | _ => includes (ToString field) searchTerm
  end.

Definition overlayMatch (searchTerm : string) (libraryItem : LibraryItem)
  : Completion.t bool :=
  bind (optLowerIncludes (Item.title libraryItem) searchTerm) (fun titleMatch =>
  bind (optLowerIncludes (Item.author libraryItem) searchTerm) (fun authorMatch =>
  bind (optLowerIncludes (Item.category libraryItem) searchTerm) (fun categoryMatch =>
  bind (optLowerIncludes (Item.type libraryItem) searchTerm) (fun typeMatch =>
  let yearMatch :=
    optToStringIncludes (Item.publishingYear libraryItem) searchTerm
    || optToStringIncludes (Item.year libraryItem) searchTerm in
  Normal (titleMatch || authorMatch || categoryMatch || typeMatch || yearMatch))))).

(** The [forEach] over the masonry nodes, [index] counting from the node at
    the head of [nodes]; on a throw the nodes already visited keep their new
    class lists. *)
Fixpoint markMatches (searchTerm : string) (items : list LibraryItem)
  (index : nat) (nodes : list MasonryNode)
  : list MasonryNode * option Error :=
  match nodes with
  | [] => ([], None)
  | n :: rest =>
      match nth_error items index with
      | None =>
          let '(rest', e) := markMatches searchTerm items (S index) rest in
          (n :: rest', e)
      | Some libraryItem =>
          match overlayMatch searchTerm libraryItem with
          | Throw e => (n :: rest, Some e)
          | Normal isMatch =>
              let n' := if isMatch then classList_add "search-match" n
                        else classList_remove "search-match" n in
              let '(rest', e) := markMatches searchTerm items (S index) rest in
              (n' :: rest', e)
          end
      end
  end.

(** The outcome of [performOverlaySearch]: the page after the call, and the
    error if one was thrown. *)
Definition performOverlaySearch (query : string) (p : Page)
  : Page * option Error :=
  if (query =? "") || (trim query =? "") then
    (setMasonryItems (map (classList_remove "search-match") (masonryItems p)) p,
     None)
  else
    let searchTerm := trim (toLowerCase query) in
    let '(nodes, e) := markMatches searchTerm (libraryItems p) 0 (masonryItems p) in
    (setMasonryItems nodes p, e).

(** *** deleteLibraryItem *)

(** What awaiting the Supabase delete request gives. *)
Inductive RemoteOutcome : Type :=
| RemoteOk
| RemoteError (message : string).

(** [libraryItems.findIndex(item => item.id === itemId)]; [None] is -1. *)
Fixpoint findIndex (itemId : jsval) (items : list LibraryItem) : option nat :=
  match items with
  | [] => None
  | item :: r =>
      if strictEq (Item.id item) itemId then Some O
      else match findIndex itemId r with
           | Some i => Some (S i)
           | None => None
           end
  end.

(** [xs.splice(index, 1)] for an index inside the array. *)
Definition splice1 {A : Type} (index : nat) (xs : list A) : list A :=
  firstn index xs ++ skipn (S index) xs.

Definition deleteLibraryItem (remote : RemoteOutcome) (itemId : jsval) (p : Page)
  : Page :=
  match findIndex itemId (libraryItems p) with
  | None => emit (ShowNotification "Error: Item not found." "error") p
  | Some itemIndex =>
      let deletedTitle :=
        match nth_error (libraryItems p) itemIndex with
        | Some deletedItem => ToString (Item.title deletedItem)
        | None => "undefined"
        end in
      let authenticated :=
        match currentUser p with Some _ => supabase p | None => false end in
      let failure :=
        if authenticated
        then match remote with
             | RemoteOk => None
             | RemoteError message => Some message
             end
        else None in
      match failure with
      | Some message =>
          emit (ShowNotification ("Error deleting item: " ++ message) "error") p
      | None =>
          let p1 := setLibraryItems (splice1 itemIndex (libraryItems p)) p in
          let p2 := match currentUser p1 with
                    | None => setDigitalLibrary (libraryItems p1) p1
                    | Some _ => p1
                    end in
          let p3 := emit UpdateLibraryDisplay p2 in
          emit (ShowNotification
                  (String dquote (deletedTitle ++ String dquote " has been deleted."))
                  "info") p3
      end
  end.

(** *** GoogleBooksService.transformResults, the [isbn] field *)

Record IndustryIdentifier : Type := {
  id_type : jsval;
  identifier : jsval
}.

(** [identifiers.find(id => id.type === kind)] *)
Definition findIdentifier (kind : string) (identifiers : list IndustryIdentifier)
  : option IndustryIdentifier :=
  find (fun i => strictEq (id_type i) (JStr kind)) identifiers.

(** [industryIdentifiers?.find(id => id.type === kind)?.identifier] *)
Definition optIdentifier (kind : string)
  (industryIdentifiers : option (list IndustryIdentifier)) : jsval :=
  match industryIdentifiers with
  | None => JUndefined
  | Some ids =>
      match findIdentifier kind ids with
      | Some i => identifier i
      | None => JUndefined
      end
  end.

Definition transformResults_isbn
  (industryIdentifiers : option (list IndustryIdentifier)) : jsval :=
  or_else (optIdentifier "ISBN_13" industryIdentifiers)
    (or_else (optIdentifier "ISBN_10" industryIdentifiers) (JStr "No ISBN")).

End Library.

(* ================================================================= *)
(** ** Server-side services: GoogleBooksService and GeminiService *)

Module GoogleBooksService.
Import JS.

Definition IndustryIdentifier : Type := Library.IndustryIdentifier.

(** [extractISBN(identifiers)]; [None] is an argument that is missing or
    not an array. *)
Definition extractISBN (identifiers : option (list IndustryIdentifier)) : jsval :=
  match identifiers with
  | None => JNull
  | Some ids =>
      let isbn13 := Library.findIdentifier "ISBN_13" ids in
      let isbn10 := Library.findIdentifier "ISBN_10" ids in
      match isbn13 with
      | Some i => Library.identifier i
      | None =>
          match isbn10 with
          | Some i => Library.identifier i
          | None => JNull
          end
      end
  end.

End GoogleBooksService.

Module GeminiService.
Import JS.
Import Completion.

Record BookInfo : Type := mkBookInfo {
  title : jsval;
  author : jsval;
  isbn : jsval;
  publisher : jsval;
  year : jsval;
  description : jsval;
  category : jsval;
  confidence : jsval;
  source : jsval
}.

(** The suffix of [s] that starts at its first ['{']. *)
Fixpoint fromFirstOpen (s : string) : option string :=
  match s with
  | EmptyString => None
  | String c r => if Ascii.eqb c "{" then Some s else fromFirstOpen r
  end.

(** The prefix of [s] that ends at its last ['}']. *)
Fixpoint throughLastClose (s : string) : option string :=
  match s with
  | EmptyString => None
  | String c r =>
      match throughLastClose r with
      | Some t => Some (String c t)
      | None => if Ascii.eqb c "}" then Some (String c EmptyString) else None
      end
  end.

(** [responseText.match(/\{[\s\S]*\}/)], element 0: the leftmost ['{'] and,
    the star being greedy, everything up to the last ['}'] after it. *)
Definition jsonMatch (responseText : string) : option string :=
  match fromFirstOpen responseText with
  | Some t => throughLastClose t
  | None => None
  end.

(** [line.match(/\d{4}/)], element 0: the first four digits in a row. *)
Fixpoint yearMatch (line : string) : option string :=
  match line with
  | String a (String b (String c (String d _)) as r) =>
      if isDigit a && isDigit b && isDigit c && isDigit d
      then Some (String a (String b (String c (String d EmptyString))))
      else yearMatch r
  | _ => None
  end.

(** [line.split(':')[1]?.trim() || null] *)
Definition fieldAfterColon (line : string) : jsval :=
  match split ":" line with
  | _ :: x :: _ => let t := trim x in if t =? "" then JNull else JStr t
  | _ => JNull
  end.

Definition placeholder : BookInfo :=
  {| title := JNull; author := JNull; isbn := JNull; publisher := JNull;
     year := JNull; description := JNull; category := JNull;
     confidence := JNum (ofZ 50); source := JStr "gemini_ai" |}.

(** One turn of the loop over the lines. *)
Definition scanLine (bookInfo : BookInfo) (line : string) : BookInfo :=
  let lowerLine := toLowerCase line in
  let b := bookInfo in
  if includes lowerLine "title:" && negb (truthy (title b)) then
    mkBookInfo (fieldAfterColon line) (author b) (isbn b) (publisher b)
               (year b) (description b) (category b) (confidence b) (source b)
  else if includes lowerLine "author:" && negb (truthy (author b)) then
    mkBookInfo (title b) (fieldAfterColon line) (isbn b) (publisher b)
               (year b) (description b) (category b) (confidence b) (source b)
  else if includes lowerLine "isbn:" && negb (truthy (isbn b)) then
    mkBookInfo (title b) (author b) (fieldAfterColon line) (publisher b)
               (year b) (description b) (category b) (confidence b) (source b)
  else if includes lowerLine "publisher:" && negb (truthy (publisher b)) then
    mkBookInfo (title b) (author b) (isbn b) (fieldAfterColon line)
               (year b) (description b) (category b) (confidence b) (source b)
  else if includes lowerLine "year:" && negb (truthy (year b)) then
    mkBookInfo (title b) (author b) (isbn b) (publisher b)
               (match yearMatch line with
                | Some y => JNum (parseIntStr y)
                | None => JNull
                end)
               (description b) (category b) (confidence b) (source b)
  else if includes lowerLine "category:" && negb (truthy (category b)) then
    mkBookInfo (title b) (author b) (isbn b) (publisher b)
               (year b) (description b) (fieldAfterColon line) (confidence b)
               (source b)
  else b.

Definition fallbackTextParsing (responseText : string) : BookInfo :=
  let lines := split newline responseText in
  fold_left scanLine lines placeholder.

(** [parsed.key]: a property of an object, [undefined] on any other value
    except [null], where the access throws. *)
Definition property (parsed : jsval) (key : string) : Completion.t jsval :=
  match parsed with
  | JObj props => Normal (getProp props key)
  | JNull | JUndefined => Throw TypeError
  | _ => Normal JUndefined
  end.

(** The object literal returned from the [if (jsonMatch)] branch. *)
Definition cleaned (parsed : jsval) : Completion.t BookInfo :=
  bind (property parsed "title") (fun p_title =>
  bind (property parsed "author") (fun p_author =>
  bind (property parsed "isbn") (fun p_isbn =>
  bind (property parsed "publisher") (fun p_publisher =>
  bind (property parsed "year") (fun p_year =>
  bind (property parsed "description") (fun p_description =>
  bind (property parsed "category") (fun p_category =>
  bind (property parsed "confidence") (fun p_confidence =>
  Normal
    {| title := or_else p_title JNull;
       author := or_else p_author JNull;
       isbn := or_else p_isbn JNull;
       publisher := or_else p_publisher JNull;
       year := if truthy p_year then JNum (parseInt p_year) else JNull;
       description := or_else p_description JNull;
       category := or_else p_category JNull;
       confidence := if truthy p_confidence
                     then JNum (parseInt p_confidence) else JNull;
       source := JStr "gemini_ai" |})))))))).

(** The body of the [try] block. *)
Definition tryParse (responseText : string) : Completion.t BookInfo :=
  match jsonMatch responseText with
  | Some jsonStr =>
      match JSON.parse jsonStr with
      | Some parsed => cleaned parsed
      | None => Throw SyntaxError
      end
  | None => Normal (fallbackTextParsing responseText)
  end.

Definition parseGeminiResponse (responseText : string) : BookInfo :=
  match tryParse responseText with
  | Normal bookInfo => bookInfo
  | Throw _ => fallbackTextParsing responseText
  end.

End GeminiService.

(* ================================================================= *)
(** ** Sample data used by the closed examples *)

Module Samples.
Import JS.
Import Library.

Definition quoted (s : string) : string := String dquote (s ++ String dquote "").

Definition dune : LibraryItem :=
  Item.mk (JNum (ofZ 1)) (JStr "Dune") (JStr "Frank Herbert") (JStr "book")
          (JStr "Fiction") (JNum (ofZ 1965)) JUndefined (JStr "finished")
          (JStr "english") (JNum (ofZ 3)) (JNum (Num (9 # 2))).

(** An item whose rating is the number 0. *)
Definition zeroRated : LibraryItem :=
  Item.mk (JNum (ofZ 2)) (JStr "Clean Code") (JStr "Robert C. Martin")
          (JStr "book") (JStr "Programming") (JNum (ofZ 2008)) JUndefined
          (JStr "reading") (JStr "english") (JNum (ofZ 2)) (JNum (ofZ 0)).

(** An item with no rating and no difficulty. *)
Definition unrated : LibraryItem :=
  Item.mk (JNum (ofZ 3)) (JStr "Thinking, Fast and Slow")
          (JStr "Daniel Kahneman") (JStr "book") (JStr "Psychology")
          (JNum (ofZ 2011)) JUndefined (JStr "not-started") (JStr "english")
          JNull JNull.

(** An object without an [author] property, as a saved or imported library
    may hold. *)
Definition noAuthor : LibraryItem :=
  Item.mk (JNum (ofZ 4)) (JStr "Atomic Habits") JUndefined (JStr "book")
          (JStr "Self-Improvement") JUndefined (JNum (ofZ 2018)) JUndefined
          JUndefined JUndefined JUndefined.

(** A database row without difficulty or rating, as [loadLibraryData] maps
    it: [difficulty: item.difficulty?.toString() || 'medium'] and
    [rating: item.rating?.toString() || '0']. *)
Definition loadedRow : LibraryItem :=
  Item.mk (JStr "6f1c") (JStr "Sapiens") (JStr "Yuval Noah Harari")
          (JStr "book") (JStr "") (JStr "") JUndefined (JStr "unread") (JStr "")
          (JStr "medium") (JStr "0").

Definition page (items : list LibraryItem) (f : Filters.t) : Page :=
  mkPage items f None false None None EnterSearchTerm
         (map (fun _ => {| classList := ["masonry-item"; "search-match"] |}) items)
         [].

(** A document with the planet element, and a masonry renderer that
    returns. *)
Definition display : Display :=
  {| planet := true; updateMasonryDisplay := fun _ => None |}.



Definition difficultyOnly (value : string) : Filters.t :=
  Filters.mk "all" "all" "all" value "all" "all".

(** The inclusive range the specification gives for a difficulty bucket. *)
Definition bucketRange (bucket : string) : option (Z * Z) :=
  if bucket =? "easy" then Some (1, 3)%Z
  else if bucket =? "medium" then Some (4, 7)%Z
  else if bucket =? "hard" then Some (8, 10)%Z
  else None.


(** The four fields [performSearch] lower-cases are all strings. *)
Definition textFieldsAreStrings (item : LibraryItem) : Prop :=
  exists t a c y,
    Item.title item = JStr t /\ Item.author item = JStr a
    /\ Item.category item = JStr c /\ Item.type item = JStr y.

(** [item] does not have the id [itemId]. *)
Definition otherId (itemId : jsval) (item : LibraryItem) : Prop :=
  strictEq (Item.id item) itemId = false.

(** [i] is the first entry of [ids] whose type is [kind]. *)
Definition firstOfKind (kind : string) (ids : list IndustryIdentifier)
           (i : IndustryIdentifier) : Prop :=
  exists before after : list IndustryIdentifier,
    ids = (before ++ i :: after)%list
    /\ id_type i = JStr kind
    /\ Forall (fun j => id_type j <> JStr kind) before.

Definition noneOfKind (kind : string) (ids : list IndustryIdentifier) : Prop :=
  Forall (fun j => id_type j <> JStr kind) ids.

Definition isbn10Entry : IndustryIdentifier :=
  {| id_type := JStr "ISBN_10"; identifier := JStr "0441172717" |}.

Definition isbn13Entry : IndustryIdentifier :=
  {| id_type := JStr "ISBN_13"; identifier := JStr "9780441172719" |}.

(** An ISBN_13 entry whose identifier is the empty string. *)
Definition blankIsbn13Entry : IndustryIdentifier :=
  {| id_type := JStr "ISBN_13"; identifier := JStr "" |}.

(** The prefixes [fallbackTextParsing] looks for in a lower-cased line. *)
Definition recognizedKeys : list string :=
  ["title:"; "author:"; "isbn:"; "publisher:"; "year:"; "category:"].

(** No stretch of [text] is a JSON text for an object. *)
Definition noParseableObject (text : string) : Prop :=
  forall (pre s post : string) (props : list (string * jsval)),
    text = pre ++ s ++ post -> JSON.parse s <> Some (JObj props).

(** No line of [text] contains a recognized key, in any letter case. *)
Definition noKeyLine (text : string) : Prop :=
  forall line key : string,
    In line (split newline text) -> In key recognizedKeys ->
    includes (toLowerCase line) key = false.

(** A reply with an object and prose on both sides, the prose after it
    using braces. *)
Definition duneObject : string :=
  "{" ++ quoted "title" ++ ": " ++ quoted "Dune" ++ ", "
      ++ quoted "author" ++ ": " ++ quoted "Frank Herbert" ++ ", "
      ++ quoted "year" ++ ": " ++ quoted "1965" ++ ", "
      ++ quoted "confidence" ++ ": 90}".

Definition duneBody : string :=
  quoted "title" ++ ": " ++ quoted "Dune" ++ ", "
      ++ quoted "author" ++ ": " ++ quoted "Frank Herbert" ++ ", "
      ++ quoted "year" ++ ": " ++ quoted "1965" ++ ", "
      ++ quoted "confidence" ++ ": 90".

Definition duneProps : list (string * jsval) :=
  [("title", JStr "Dune"); ("author", JStr "Frank Herbert");
   ("year", JStr "1965"); ("confidence", JNum (ofZ 90))].

End Samples.

(* ================================================================= *)
(** ** src/UI/script.js, continued: saving, updating, adding, loading *)

Module LibraryStore.
Import JS.
Import Completion.
Import Library.

(** [currentUser && supabase] *)
Definition authenticated (p : Page) : bool :=
  match currentUser p with
  | Some _ => supabase p
  | None => false
  end.

(** [saveLibraryData()]: the statements before its unconditional [return];
    what follows that [return] in the source is never run. *)
Definition saveLibraryData (p : Page) : Page :=
  if authenticated p then p else setDigitalLibrary (libraryItems p) p.

(** [xs[index] = x] for an index inside the array, which is the only way
    [updateLibraryItem] uses it. *)
Fixpoint assignAt {A : Type} (index : nat) (x : A) (xs : list A) : list A :=
  match xs, index with
  | [], _ => []
  | _ :: r, O => x :: r
  | y :: r, S i => y :: assignAt i x r
  end.

Definition updateLibraryItem (updatedItem : LibraryItem) (p : Page) : Page :=
  match findIndex (Item.id updatedItem) (libraryItems p) with
  | Some itemIndex =>
      let p1 := setLibraryItems
                  (assignAt itemIndex updatedItem (libraryItems p)) p in
      emit UpdateLibraryDisplay (saveLibraryData p1)
  | None => emit (ShowNotification "Error: Item not found for update" "error") p
  end.

(** What awaiting the Supabase insert gives: the id of the first inserted
    row, when there is one, or an error. *)
Inductive InsertOutcome : Type :=
| InsertOk (insertedId : option jsval)
| InsertError (message : string).

(** [item.id = newId] *)
Definition setId (newId : jsval) (item : LibraryItem) : LibraryItem :=
  Item.mk newId (Item.title item) (Item.author item) (Item.type item)
          (Item.category item) (Item.publishingYear item) (Item.year item)
          (Item.status item) (Item.language item) (Item.difficulty item)
          (Item.rating item).

(** [addLibraryItem(item)].  In the authenticated branch the only statement
    that can throw before the request is [(item.type || 'book').toLowerCase()],
    on a truthy type that is not a string; [typeErrorMessage] is the text the
    engine gives that TypeError. *)
Definition addLibraryItem (typeErrorMessage : string) (remote : InsertOutcome)
           (item : LibraryItem) (p : Page) : Page :=
  if authenticated p then
    let failure :=
      match or_else (Item.type item) (JStr "book") with
      | JStr _ =>
          match remote with
          | InsertOk _ => None
          | InsertError message => Some message
          end
      | _ => Some typeErrorMessage
      end in
    match failure with
    | Some message =>
        emit (ShowNotification ("Error saving item: " ++ message) "error") p
    | None =>
        let item1 := match remote with
                     | InsertOk (Some newId) => setId newId item
                     | _ => item
                     end in
        emit UpdateLibraryDisplay
             (setLibraryItems (libraryItems p ++ [item1]) p)
    end
  else
    let p1 := setLibraryItems (libraryItems p ++ [item]) p in
    emit UpdateLibraryDisplay (setDigitalLibrary (libraryItems p1) p1).

(** The [Set] of categories built at the start of [populateFilterCategories],
    in insertion order.  [item.category.trim] on a truthy value that is not
    a string throws. *)
Definition setAdd (x : string) (s : list string) : list string :=
  if existsb (String.eqb x) s then s else s ++ [x].

Definition categoryStep (acc : Completion.t (list string)) (item : LibraryItem)
  : Completion.t (list string) :=
  bind acc (fun categories =>
    match Item.category item with
    | JStr c =>
        if negb (c =? "") && negb (trim c =? "")
        then Normal (setAdd c categories)
        else Normal categories
    | v => if truthy v then Throw TypeError else Normal categories
    end).

Definition collectCategories (items : list LibraryItem)
  : Completion.t (list string) :=
  fold_left categoryStep items (Normal []).

(** [field && field.toLowerCase().includes(searchTerm)], as a truth value. *)
Definition guardedLowerIncludes (field : jsval) (searchTerm : string)
  : Completion.t bool :=
  if truthy field then lowerIncludes field searchTerm else Normal false.

(** The callback of [existingResults] in [performAddModalSearch]. *)
Definition addModalCallback (query : string) (item : LibraryItem)
  : Completion.t bool :=
  let searchTerm := toLowerCase query in
  orElse (lowerIncludes (Item.title item) searchTerm)
    (orElse (guardedLowerIncludes (Item.author item) searchTerm)
            (guardedLowerIncludes (Item.category item) searchTerm)).

(** [existingResults.slice(0, 5)] *)
Definition existingResults (query : string) (items : list LibraryItem)
  : Completion.t (list LibraryItem) :=
  bind (filterM (addModalCallback query) items) (fun results =>
  Normal (firstn 5 results)).

(** A row of the [libraries] table, with the columns [loadLibraryData]
    reads into the fields of an item modelled here. *)
Module Row.
Record t : Type := mk {
  id : jsval;
  title : jsval;
  author : jsval;
  type : jsval;
  publishing_year : jsval;
  year : jsval;
  rating : jsval;
  difficulty : jsval;
  language : jsval;
  category : jsval;
  status : jsval
}.
End Row.

(** [v?.toString()] *)
Definition optToString (v : jsval) : jsval :=
  match v with
  | JUndefined | JNull => JUndefined
  | _ => JStr (ToString v)
  end.

(** The callback of [(data || []).map] in [loadLibraryData]. *)
Definition fromRow (item : Row.t) : LibraryItem :=
  Item.mk (Row.id item)
          (Row.title item)
          (or_else (Row.author item) (JStr ""))
          (Row.type item)
          (or_else (Row.category item) (JStr ""))
          (or_else (Row.publishing_year item)
                   (or_else (optToString (Row.year item)) (JStr "")))
          JUndefined
          (or_else (Row.status item) (JStr "unread"))
          (or_else (Row.language item) (JStr ""))
          (or_else (optToString (Row.difficulty item)) (JStr "medium"))
          (or_else (optToString (Row.rating item)) (JStr "0")).

End LibraryStore.

(* ================================================================= *)
(** ** Server-side services, continued *)

Module BookFormat.
Import JS.
Import Completion.

(** [extractYear(publishedDate)]; [split] exists on strings only. *)
Definition extractYear (publishedDate : jsval) : Completion.t jsval :=
  if negb (truthy publishedDate) then Normal JNull
  else
    match publishedDate with
    | JStr s =>
        let year :=
          match split "-" s with
          | first :: _ => parseIntStr first
          | [] => NaN
          end in
        match year with
        | NaN => Normal JNull
        | _ => Normal (JNum year)
        end
    | _ => Throw TypeError
    end.

(** [truncateText(text, maxLength)] on a string. *)
Definition truncateText (text : string) (maxLength : nat) : string :=
  if (text =? "") || (String.length text <=? maxLength)%nat then text
  else trim (substring 0 maxLength text) ++ "...".

Record ImageLinks : Type := {
  large : jsval;
  medium : jsval;
  small : jsval;
  thumbnail : jsval;
  smallThumbnail : jsval
}.

(** [getBestCoverImage(imageLinks)]; [None] is a missing [imageLinks]. *)
Definition getBestCoverImage (imageLinks : option ImageLinks) : jsval :=
  match imageLinks with
  | None => JNull
  | Some l =>
      or_else (large l)
        (or_else (medium l)
           (or_else (small l)
              (or_else (thumbnail l)
                 (or_else (smallThumbnail l) JNull))))
  end.

End BookFormat.

Module ImageCheck.
Import JS.

Record Validation : Type := { valid : bool; error : option string }.

Definition allowedTypes : list string :=
  ["image/jpeg"; "image/jpg"; "image/png"; "image/webp"].

(** [GeminiService.validateImage(imageBase64, mimeType)] *)
Definition validateImage (imageBase64 : string) (mimeType : jsval) : Validation :=
  if negb (existsb (fun t => strictEq (JStr t) mimeType) allowedTypes) then
    {| valid := false;
       error := Some "Unsupported image format. Please use JPEG, PNG, or WebP." |}
  else
    let sizeInBytes :=
      Num ((Z.of_nat (String.length imageBase64) * 3 # 1) / (4 # 1)) in
    let maxSize := ofZ (10 * 1024 * 1024) in
    if number_gt sizeInBytes maxSize then
      {| valid := false;
         error := Some "Image too large. Please use an image smaller than 10MB." |}
    else {| valid := true; error := None |}.

End ImageCheck.

Module GoogleScholarService.
Import JS.

(** What the selectors of [fallbackSearch] read off one result element:
    [text()] of the first match of each selector (the empty string when
    nothing matches) and the [href] attributes. *)
Record Element : Type := {
  titleText : string;
  titleHref : option string;
  authorsText : string;
  snippetText : string;
  citedByText : string;
  pdfHref : option string
}.

Record Paper : Type := {
  title : string;
  authors : string;
  author : string;
  year : jsval;
  snippet : string;
  citedBy : number;
  link : jsval;
  pdfLink : jsval;
  source : string
}.

(** [text.match(/\d+/)], element 0: the first run of digits. *)
Fixpoint firstDigitRun (text : string) : option string :=
  match text with
  | EmptyString => None
  | String c r =>
      if isDigit c then Some (fst (spanDigits text)) else firstDigitRun r
  end.

(** [s || fallback] on strings. *)
Definition orString (s fallback : string) : string :=
  if s =? "" then fallback else s.

(** [href || null] *)
Definition hrefOrNull (href : option string) : jsval :=
  match href with
  | Some h => if h =? "" then JNull else JStr h
  | None => JNull
  end.

(** The body of the [each] callback after the length check: the paper the
    element gives, if it is pushed. *)
Definition scrape (e : Element) : option Paper :=
  let title := orString (trim (titleText e)) "Unknown Title" in
  let authors := orString (trim (authorsText e)) "Unknown Authors" in
  let citedBy :=
    match firstDigitRun (citedByText e) with
    | Some run => orString run "0"
    | None => "0"
    end in
  let year :=
    match GeminiService.yearMatch (authorsText e) with
    | Some y => JNum (parseIntStr y)
    | None => JNull
    end in
  if negb (title =? "") && negb (title =? "Unknown Title") then
    Some {| title := title; authors := authors; author := authors;
            year := year; snippet := trim (snippetText e);
            citedBy := parseIntStr citedBy;
            link := hrefOrNull (titleHref e);
            pdfLink := hrefOrNull (pdfHref e);
            source := "google_scholar" |}
  else None.

(** The [each] loop of [fallbackSearch]: once [papers.length >= maxResults]
    the callback returns [false] and the iteration stops. *)
Fixpoint eachElement (maxResults : Z) (elements : list Element)
         (papers : list Paper) : list Paper :=
  match elements with
  | [] => papers
  | e :: rest =>
      if (maxResults <=? Z.of_nat (List.length papers))%Z then papers
      else
        match scrape e with
        | Some paper => eachElement maxResults rest (papers ++ [paper])
        | None => eachElement maxResults rest papers
        end
  end.

(** The papers [fallbackSearch] returns for the elements of the page. *)
Definition fallbackSearch (elements : list Element) (maxResults : Z)
  : list Paper :=
  eachElement maxResults elements [].

End GoogleScholarService.

(* ================================================================= *)
(** ** Conditions on items and rows used in the statements below *)

Module Terms.
Import JS.
Import Library.
Import LibraryStore.

(** The field is missing or a string. *)
Definition absentOrString (v : jsval) : Prop :=
  v = JUndefined \/ v = JNull \/ exists s, v = JStr s.

(** The field is falsy or a string. *)
Definition stringOrFalsy (v : jsval) : Prop :=
  truthy v = false \/ exists s, v = JStr s.

(** Each of the four text fields the overlay search lower-cases is missing
    or a string. *)
Definition overlayReady (item : LibraryItem) : Prop :=
  absentOrString (Item.title item) /\ absentOrString (Item.author item)
  /\ absentOrString (Item.category item) /\ absentOrString (Item.type item).

Definition lowerContains (field : jsval) (searchTerm : string) : bool :=
  match field with
  | JStr s => includes (toLowerCase s) searchTerm
  | _ => false
  end.

(** One of title, author, category, type (lower-cased) or publishingYear,
    year (as text) contains the term. *)
Definition overlayMatches (searchTerm : string) (item : LibraryItem) : bool :=
  lowerContains (Item.title item) searchTerm
  || lowerContains (Item.author item) searchTerm
  || lowerContains (Item.category item) searchTerm
  || lowerContains (Item.type item) searchTerm
  || (optToStringIncludes (Item.publishingYear item) searchTerm
      || optToStringIncludes (Item.year item) searchTerm).

(** The title is a string; author and category are strings or falsy. *)
Definition addModalReady (item : LibraryItem) : Prop :=
  (exists t, Item.title item = JStr t)
  /\ stringOrFalsy (Item.author item)
  /\ stringOrFalsy (Item.category item).

(** A row as the table's constraints give it: title and type are strings,
    author and category are strings or null. *)
Definition rowReady (row : Row.t) : Prop :=
  (exists t, Row.title row = JStr t)
  /\ (exists y, Row.type row = JStr y)
  /\ stringOrFalsy (Row.author row)
  /\ stringOrFalsy (Row.category row).

End Terms.

(* ================================================================= *)
(** ** The built-ins on a few inputs *)

Module ModelChecks.
Import JS.
Import Samples.

Example parseInt_rounds_to_double :
  parseIntStr "9007199254740993" = ofZ 9007199254740992
  /\ parseIntStr "99999999999999999999" = ofZ (10 ^ 20)
  /\ parseIntStr ("1" ++ zeros 308) <> Inf false
  /\ parseIntStr ("2" ++ zeros 308) = Inf false.
Proof. repeat split; try reflexivity. vm_compute. discriminate. Qed.

Example parseInt_of_label : parseInt (JStr "medium") = NaN.
Proof. reflexivity. Qed.

Example parseInt_of_numeric_string : parseInt (JStr " 42px") = ofZ 42.
Proof. reflexivity. Qed.

Example parseInt_of_fraction : parseInt (JNum (Num (7 # 2))) = ofZ 3.
Proof. reflexivity. Qed.

Example parseInt_of_large_number :
  parseInt (JNum (ofZ (10 ^ 21))) = ofZ 1.
Proof. reflexivity. Qed.

Example toString_of_numbers :
  map NumberToString [Num (9 # 2); ofZ 2020; Num (-1 # 8); Num (1 # 10000000)]
  = ["4.5"; "2020"; "-0.125"; "1e-7"].
Proof. reflexivity. Qed.

Example zero_is_falsy_and_its_string_is_not :
  truthy (JNum (ofZ 0)) = false /\ truthy (JStr "0") = true
  /\ truthy (JStr "") = false.
Proof. repeat split. Qed.

Example comparison_with_NaN_is_false :
  number_lt NaN (ofZ 1) = false /\ number_gt NaN (ofZ 3) = false.
Proof. split; reflexivity. Qed.

Example string_compared_as_number :
  lt_num (JStr "4.5") (ofZ 5) = true /\ lt_num (JStr "abc") (ofZ 5) = false.
Proof. split; reflexivity. Qed.

Example split_and_trim :
  split ":" "Title:  Dune : a novel" = ["Title"; "  Dune "; " a novel"]
  /\ trim "  Dune " = "Dune".
Proof. split; reflexivity. Qed.

Example json_parse_object :
  JSON.parse duneObject = Some (JObj duneProps).
Proof. reflexivity. Qed.

Example json_parse_rejects_trailing_text :
  JSON.parse (duneObject ++ " }") = None /\ JSON.parse "[1,]" = None
  /\ JSON.parse "{}" = Some (JObj []).
Proof. repeat split. Qed.

Example match_is_greedy :
  GeminiService.jsonMatch "a {b} c } d { e" = Some "{b} c }".
Proof. reflexivity. Qed.

End ModelChecks.

(* ================================================================= *)
(** ** The Number [parseInt] returns *)

Module NumberFacts.
Import JS.

(** Integers up to 2^53 in absolute value are Numbers as they are. *)
Lemma integerToNumber_exact (z : Z) :
  (Z.abs z <= 2 ^ 53)%Z -> integerToNumber z = ofZ z.
Proof.
  intros H. unfold integerToNumber.
  apply Z.leb_le in H. rewrite H. reflexivity.
Qed.

(** Rounding gives an integer of the same sign, or the infinity of that
    sign; it never gives NaN. *)
Lemma integerToNumber_cases (z : Z) :
  (exists m, integerToNumber z = ofZ m
             /\ (0 <= z -> 0 <= m)%Z /\ (z <= 0 -> m <= 0)%Z)
  \/ integerToNumber z = Inf (z <? 0)%Z.
Proof.
  unfold integerToNumber.
  destruct (Z.abs z <=? 2 ^ 53)%Z.
  - left. exists z. split; [reflexivity | lia].
  - cbv zeta.
    set (k := (Z.log2 (Z.abs z) - 52)%Z).
    set (q := Z.shiftr (Z.abs z) k).
    assert (Hq : (0 <= q)%Z) by (apply Z.shiftr_nonneg; lia).
    match goal with
    | |- context [Z.shiftl (if ?c then _ else _) k] =>
        set (q' := if c then (q + 1)%Z else q);
        assert (Hq' : (0 <= q')%Z) by (unfold q'; destruct c; lia)
    end.
    destruct (2 ^ 1024 <=? Z.shiftl q' k)%Z; [right; reflexivity|].
    left. exists (Z.sgn z * Z.shiftl q' k)%Z. split; [reflexivity|].
    assert (Hm : (0 <= Z.shiftl q' k)%Z) by (apply Z.shiftl_nonneg; exact Hq').
    split; intros Hz; nia.
Qed.

Lemma integerToNumber_not_NaN (z : Z) : integerToNumber z <> NaN.
Proof.
  destruct (integerToNumber_cases z) as [(m & -> & _) | ->]; discriminate.
Qed.

(** What [parseInt] returns on a string: NaN, an integer, or an infinity. *)
Lemma parseIntStr_cases (s : string) :
  parseIntStr s = NaN
  \/ (exists d, parseIntStr s = ofZ d)
  \/ (exists negative, parseIntStr s = Inf negative).
Proof.
  unfold parseIntStr.
  destruct (stripSign (trimStart s)) as [sign r].
  destruct (isHexPrefix r) as [h|].
  - destruct (digitsPrefix 16 h None) as [z|]; [|left; reflexivity].
    right. destruct (integerToNumber_cases (sign * z)) as [(m & -> & _) | ->];
      eauto.
  - destruct (digitsPrefix 10 r None) as [z|]; [|left; reflexivity].
    right. destruct (integerToNumber_cases (sign * z)) as [(m & -> & _) | ->];
      eauto.
Qed.

Lemma number_lt_ofZ (a b : Z) : number_lt (ofZ a) (ofZ b) = (a <? b)%Z.
Proof.
  unfold number_lt, ofZ, Qle_bool, inject_Z. simpl.
  rewrite !Z.mul_1_r. symmetry. apply Z.ltb_antisym.
Qed.



End NumberFacts.

(* ================================================================= *)
(** ** Properties of the filter callback and of [applyFilters] *)

Module FilterFacts.
Import JS.
Import Library.
Import Samples.

Lemma passesFilters_all (item : LibraryItem) :
  passesFilters allFilters item = true.
Proof. reflexivity. Qed.

Lemma filter_true_id {A : Type} (f : A -> bool) (l : list A) :
  (forall x, f x = true) -> filter f l = l.
Proof.
  intros Hf. induction l as [|x l IH]; simpl.
  - reflexivity.
  - rewrite Hf, IH. reflexivity.
Qed.

(** The renderer always receives the filtered list, and the collection is
    not assigned to, whether the renderer returns or throws. *)
Lemma applyFilters_renders (d : Display) (p : Page) :
  lastRendered (fst (applyFilters d p)) = Some (filteredItems p)
  /\ libraryItems (fst (applyFilters d p)) = libraryItems p.
Proof.
  unfold applyFilters, lastRendered.
  destruct (savedView p =? "masonry");
    [destruct (updateMasonryDisplay d (filteredItems p))
    |destruct (updatePlanetDisplay d (filteredItems p))];
    try destruct (Nat.ltb _ _); simpl; auto.
Qed.


Lemma passesFilters_difficultyOnly (value : string) (item : LibraryItem) :
  value <> "all" ->
  passesFilters (difficultyOnly value) item
  = negb (difficultyRejects item value).
Proof.
  intros Hv. unfold passesFilters, difficultyOnly. simpl.
  apply String.eqb_neq in Hv. rewrite Hv. simpl.
  destruct (difficultyRejects item value); reflexivity.
Qed.


(** [parseInt] gives NaN, an integer or an infinity. *)
Lemma parseInt_integer (v : jsval) :
  parseInt v <> NaN ->
  (exists d, parseInt v = ofZ d) \/ (exists negative, parseInt v = Inf negative).
Proof.
  unfold parseInt. intros H.
  destruct (NumberFacts.parseIntStr_cases (ToString v)) as [E | E];
    [contradiction | exact E].
Qed.

(** An infinite difficulty is outside every bucket. *)
Lemma difficultyRejects_infinite (item : LibraryItem) (bucket : string)
      (lo hi : Z) (negative : bool) :
  truthy (Item.difficulty item) = true ->
  parseInt (Item.difficulty item) = Inf negative ->
  bucketRange bucket = Some (lo, hi) ->
  difficultyRejects item bucket = true.
Proof.
  intros Ht Hp Hb. unfold difficultyRejects, number_gt.
  rewrite Ht, Hp. simpl negb. cbv iota.
  unfold bucketRange in Hb.
  destruct (bucket =? "easy") eqn:E1;
    [|destruct (bucket =? "medium") eqn:E2;
      [|destruct (bucket =? "hard") eqn:E3; [|discriminate]]];
    destruct negative; reflexivity.
Qed.

(** On a truthy difficulty that [parseInt] reads as the integer [d], the
    difficulty block rejects exactly the values outside the selected
    range. *)
Lemma difficultyRejects_integer (item : LibraryItem) (bucket : string)
      (lo hi d : Z) :
  truthy (Item.difficulty item) = true ->
  parseInt (Item.difficulty item) = ofZ d ->
  bucketRange bucket = Some (lo, hi) ->
  difficultyRejects item bucket = negb ((lo <=? d)%Z && (d <=? hi)%Z).
Proof.
  intros Ht Hp Hb. unfold difficultyRejects, number_gt.
  rewrite Ht, Hp, !NumberFacts.number_lt_ofZ. simpl negb. cbv iota.
  unfold bucketRange in Hb.
  destruct (bucket =? "easy") eqn:E1;
    [|destruct (bucket =? "medium") eqn:E2;
      [|destruct (bucket =? "hard") eqn:E3; [|discriminate]]];
    injection Hb as <- <-;
    match goal with E : (bucket =? _) = true |- _ =>
      apply String.eqb_eq in E; subst bucket
    end;
    simpl;
    repeat match goal with
           | |- context [(?x <? ?y)%Z] => destruct (Z.ltb_spec x y)
           | |- context [(?x <=? ?y)%Z] => destruct (Z.leb_spec x y)
           end;
    simpl; try reflexivity; lia.
Qed.

Lemma difficultyRejects_falsy (item : LibraryItem) (bucket : string) :
  truthy (Item.difficulty item) = false ->
  difficultyRejects item bucket = true.
Proof. intros H. unfold difficultyRejects. rewrite H. reflexivity. Qed.

(** C3. With all six filters at ['all'], [applyFilters] hands the renderer
    the whole collection, same items in the same order, and leaves
    [libraryItems] as it was. *)
Theorem applyFilters_all_is_identity (d : Display) (p : Page) :
  activeFilters p = allFilters ->
  filteredItems p = libraryItems p
  /\ lastRendered (fst (applyFilters d p)) = Some (libraryItems p)
  /\ libraryItems (fst (applyFilters d p)) = libraryItems p.
Proof.
  intros Hall.
  assert (Hf : filteredItems p = libraryItems p).
  { unfold filteredItems. rewrite Hall.
    apply filter_true_id, passesFilters_all. }
  destruct (applyFilters_renders d p) as [Hr Hl].
  rewrite Hr, Hf. auto.
Qed.

Lemma applyFilters_all_is_identity_witness :
  filteredItems (page [dune; zeroRated; unrated] allFilters)
  = [dune; zeroRated; unrated]
  /\ lastRendered
       (fst (applyFilters display (page [dune; zeroRated; unrated] allFilters)))
     = Some [dune; zeroRated; unrated]
  /\ libraryItems
       (fst (applyFilters display (page [dune; zeroRated; unrated] allFilters)))
     = [dune; zeroRated; unrated].
Proof.
  apply (applyFilters_all_is_identity display
           (page [dune; zeroRated; unrated] allFilters)).
  reflexivity.
Defined.





(** C6, at the failing input.  [loadLibraryData] gives a row without
    difficulty the difficulty 'medium'; [parseInt] of it is NaN, every
    comparison with NaN is false, and the item passes the 'easy', the
    'medium' and the 'hard' filter alike. *)
Lemma default_difficulty_passes_every_bucket :
  Item.difficulty loadedRow = JStr "medium"
  /\ parseInt (Item.difficulty loadedRow) = NaN
  /\ filteredItems (page [loadedRow] (difficultyOnly "easy")) = [loadedRow]
  /\ filteredItems (page [loadedRow] (difficultyOnly "medium")) = [loadedRow]
  /\ filteredItems (page [loadedRow] (difficultyOnly "hard")) = [loadedRow].
Proof. repeat split; reflexivity. Qed.

(** Whenever [parseInt] reads the difficulty as an integer, the filter does
    follow the buckets of the specification: the item passes exactly when
    its difficulty is present (truthy) and that integer lies in the range. *)
Lemma difficulty_filter_on_integers
      (item : LibraryItem) (bucket : string) (lo hi : Z) :
  bucketRange bucket = Some (lo, hi) ->
  (truthy (Item.difficulty item) = true ->
   parseInt (Item.difficulty item) <> NaN) ->
  passesFilters (difficultyOnly bucket) item = true
  <-> truthy (Item.difficulty item) = true
      /\ exists d, parseInt (Item.difficulty item) = ofZ d
                   /\ (lo <= d <= hi)%Z.
Proof.
  intros Hb Hint.
  assert (Hv : bucket <> "all") by (intros ->; discriminate Hb).
  rewrite (passesFilters_difficultyOnly bucket item Hv), negb_true_iff.
  destruct (truthy (Item.difficulty item)) eqn:Ht.
  - destruct (parseInt_integer _ (Hint eq_refl)) as [[d Hd] | [negative Hd]].
    + rewrite (difficultyRejects_integer item bucket lo hi d Ht Hd Hb).
      rewrite negb_false_iff, andb_true_iff, !Z.leb_le. split.
      * intros H. split; [reflexivity|]. exists d. split; [exact Hd | lia].
      * intros [_ [d' [Hd' H]]]. rewrite Hd in Hd'.
        unfold ofZ, inject_Z in Hd'. injection Hd' as <-. lia.
    + rewrite (difficultyRejects_infinite item bucket lo hi negative Ht Hd Hb).
      split; [discriminate|]. intros [_ [d' [Hd' _]]].
      rewrite Hd in Hd'. discriminate Hd'.
  - rewrite (difficultyRejects_falsy item bucket Ht).
    split; [discriminate|]. intros [H _]. discriminate.
Qed.

End FilterFacts.

(* ================================================================= *)
(** ** Free-text search *)

Module SearchFacts.
Import JS.
Import Completion.
Import Library.
Import Samples.

Lemma hasClass_remove (c : string) (n : MasonryNode) :
  hasClass c (classList_remove c n) = false.
Proof.
  unfold hasClass, classList_remove. simpl.
  induction (classList n) as [|x l IH]; simpl.
  - reflexivity.
  - destruct (x =? c) eqn:E; simpl.
    + exact IH.
    + rewrite E. exact IH.
Qed.

Lemma performOverlaySearch_blank (query : string) (p : Page) :
  trim query = "" ->
  performOverlaySearch query p
  = (setMasonryItems (map (classList_remove "search-match") (masonryItems p)) p,
     None).
Proof.
  intros Ht. unfold performOverlaySearch. rewrite Ht.
  rewrite orb_true_r. reflexivity.
Qed.

Lemma lowerIncludes_string (s searchTerm : string) :
  completes (lowerIncludes (JStr s) searchTerm) = true.
Proof. reflexivity. Qed.

Lemma searchCallback_completes (searchTerm : string) (item : LibraryItem) :
  textFieldsAreStrings item ->
  exists keep, searchCallback searchTerm item = Normal keep.
Proof.
  intros (t & a & c & y & Ht & Ha & Hc & Hy).
  unfold searchCallback. rewrite Ht, Ha, Hc, Hy. simpl.
  destruct (includes (toLowerCase t) searchTerm); simpl; [eauto|].
  destruct (includes (toLowerCase a) searchTerm); simpl; [eauto|].
  destruct (includes (toLowerCase c) searchTerm); simpl; eauto.
Qed.

(** [performSearch] returns normally when every item has its four text
    fields. *)
Lemma performSearch_completes_on_strings (searchTerm : string) (p : Page) :
  Forall textFieldsAreStrings (libraryItems p) ->
  completes (performSearch searchTerm p) = true.
Proof.
  intros Hall. unfold performSearch.
  destruct (searchTerm =? ""); [reflexivity|].
  assert (H : exists results,
             filterM (searchCallback searchTerm) (libraryItems p)
             = Normal results).
  { induction Hall as [|item items Hi _ IH]; simpl.
    - eauto.
    - destruct (searchCallback_completes searchTerm item Hi) as [keep ->].
      destruct IH as [r ->]. simpl. eauto. }
  destruct H as [results ->]. reflexivity.
Qed.

(** C4, as stated, fails for the library search: on the empty query, and on
    a white-space query coming through the input listeners, [performSearch]
    writes the "Enter a search term" prompt into the results container; the
    collection is not listed. *)
Lemma performSearch_empty_query_lists_nothing :
  let p := page [dune; unrated] allFilters in
  performSearch "" p = Normal (setSearchResults EnterSearchTerm p)
  /\ searchInputHandler "   " p = Normal (setSearchResults EnterSearchTerm p)
  /\ searchResults (setSearchResults EnterSearchTerm p)
     <> ResultItems (libraryItems p).
Proof.
  simpl. repeat split. discriminate.
Qed.

(** C4, amended.  For an input that is empty after lower-casing and
    trimming, the library search shows its "Enter a search term" prompt and
    lists no item; for a query that is empty after trimming, the overlay
    search returns normally with the [search-match] class removed from every
    masonry node, and touches neither the collection nor the results
    container. *)
Theorem empty_query_behaviour (value query : string) (p : Page) :
  trim (toLowerCase value) = "" ->
  trim query = "" ->
  performSearch "" p = Normal (setSearchResults EnterSearchTerm p)
  /\ searchInputHandler value p = Normal (setSearchResults EnterSearchTerm p)
  /\ snd (performOverlaySearch query p) = None
  /\ Forall (fun n => hasClass "search-match" n = false)
            (masonryItems (fst (performOverlaySearch query p)))
  /\ List.length (masonryItems (fst (performOverlaySearch query p)))
     = List.length (masonryItems p)
  /\ libraryItems (fst (performOverlaySearch query p)) = libraryItems p
  /\ searchResults (fst (performOverlaySearch query p)) = searchResults p.
Proof.
  intros Hv Hq.
  rewrite (performOverlaySearch_blank query p Hq). simpl.
  unfold searchInputHandler. rewrite Hv.
  repeat split.
  - apply Forall_forall. intros n Hin.
    apply in_map_iff in Hin. destruct Hin as [m [<- _]].
    apply hasClass_remove.
  - apply length_map.
Qed.

Lemma empty_query_behaviour_witness :
  let p := page [dune; unrated] allFilters in
  performSearch "" p = Normal (setSearchResults EnterSearchTerm p)
  /\ searchInputHandler "  " p = Normal (setSearchResults EnterSearchTerm p)
  /\ snd (performOverlaySearch "   " p) = None
  /\ Forall (fun n => hasClass "search-match" n = false)
            (masonryItems (fst (performOverlaySearch "   " p)))
  /\ List.length (masonryItems (fst (performOverlaySearch "   " p)))
     = List.length (masonryItems p)
  /\ libraryItems (fst (performOverlaySearch "   " p)) = libraryItems p
  /\ searchResults (fst (performOverlaySearch "   " p)) = searchResults p.
Proof.
  apply (empty_query_behaviour "  " "   " (page [dune; unrated] allFilters));
    reflexivity.
Defined.

(** C5, at the failing input.  On a collection holding an object without
    [author], a query its title does not contain makes the callback read
    [item.author.toLowerCase] off [undefined]: [performSearch] throws a
    TypeError. *)
Lemma performSearch_throws_on_missing_author :
  Item.author noAuthor = JUndefined
  /\ performSearch "herbert" (page [dune; noAuthor] allFilters)
     = Throw TypeError.
Proof. split; reflexivity. Qed.

End SearchFacts.

(* ================================================================= *)
(** ** Deleting an item *)

Module DeleteFacts.
Import JS.
Import Library.
Import Samples.

Lemma findIndex_Some (itemId : jsval) (items : list LibraryItem) (i : nat) :
  findIndex itemId items = Some i ->
  exists (before : list LibraryItem) deleted after,
    items = (before ++ deleted :: after)%list
    /\ List.length before = i
    /\ strictEq (Item.id deleted) itemId = true
    /\ Forall (otherId itemId) before.
Proof.
  revert i. induction items as [|x items IH]; simpl; intros i H.
  - discriminate.
  - destruct (strictEq (Item.id x) itemId) eqn:E.
    + injection H as <-. exists [], x, items. auto.
    + destruct (findIndex itemId items) as [j|]; [|discriminate].
      injection H as <-.
      destruct (IH j eq_refl) as (b & d & a & -> & Hl & Hd & Hb).
      exists (x :: b), d, a. simpl. repeat split; auto.
Qed.

Lemma findIndex_None (itemId : jsval) (items : list LibraryItem) :
  findIndex itemId items = None <-> Forall (otherId itemId) items.
Proof.
  induction items as [|x items IH]; simpl.
  - split; auto.
  - unfold otherId at 1.
    destruct (strictEq (Item.id x) itemId) eqn:E.
    + split; [discriminate|]. intros H. inversion H; subst.
      unfold otherId in *. congruence.
    + destruct (findIndex itemId items).
      * split; [discriminate|]. intros H. inversion H; subst.
        apply IH in H3. discriminate.
      * split; [|reflexivity]. intros _. constructor; [exact E|].
        apply IH. reflexivity.
Qed.

Lemma splice1_middle {A : Type} (before : list A) (x : A) (after : list A) :
  splice1 (List.length before) (before ++ x :: after)%list
  = (before ++ after)%list.
Proof.
  unfold splice1. induction before as [|y before IH]; simpl.
  - reflexivity.
  - f_equal. exact IH.
Qed.

(** When no request is made or the request succeeds, the collection after
    the call is the collection with the found index spliced out. *)
Lemma deleteLibraryItem_success
      (remote : RemoteOutcome) (itemId : jsval) (p : Page) (i : nat) :
  findIndex itemId (libraryItems p) = Some i ->
  (currentUser p = None \/ supabase p = false \/ remote = RemoteOk) ->
  libraryItems (deleteLibraryItem remote itemId p)
  = splice1 i (libraryItems p).
Proof.
  intros Hi Hpath. unfold deleteLibraryItem. rewrite Hi.
  destruct (currentUser p) eqn:Hu; destruct (supabase p) eqn:Hs;
    destruct remote; simpl; try rewrite Hu; try reflexivity;
    destruct Hpath as [H | [H | H]]; discriminate H.
Qed.

Lemma findIndex_middle (itemId : jsval)
      (before : list LibraryItem) (deleted : LibraryItem)
      (after : list LibraryItem) :
  Forall (otherId itemId) before ->
  strictEq (Item.id deleted) itemId = true ->
  findIndex itemId (before ++ deleted :: after)%list
  = Some (List.length before).
Proof.
  intros Hb Hd. induction Hb as [|x before Hx _ IH]; simpl.
  - rewrite Hd. reflexivity.
  - unfold otherId in Hx. rewrite Hx, IH. reflexivity.
Qed.

(** When the id is unique in the collection, no item with that id is left
    after a local delete. *)
Lemma deleteLibraryItem_local_unique_id
      (remote : RemoteOutcome) (itemId : jsval) (p : Page)
      (before : list LibraryItem) (deleted : LibraryItem)
      (after : list LibraryItem) :
  (currentUser p = None \/ supabase p = false) ->
  libraryItems p = (before ++ deleted :: after)%list ->
  strictEq (Item.id deleted) itemId = true ->
  Forall (otherId itemId) before ->
  Forall (otherId itemId) after ->
  libraryItems (deleteLibraryItem remote itemId p) = (before ++ after)%list
  /\ Forall (otherId itemId) (libraryItems (deleteLibraryItem remote itemId p)).
Proof.
  intros Hlocal Hitems Hd Hb Ha.
  assert (Hi : findIndex itemId (libraryItems p) = Some (List.length before))
    by (rewrite Hitems; apply findIndex_middle; assumption).
  rewrite (deleteLibraryItem_success remote itemId p _ Hi)
    by (destruct Hlocal; auto).
  rewrite Hitems, splice1_middle. split; [reflexivity|].
  apply Forall_app. split; assumption.
Qed.

(** C9. Without an authenticated session, deleting an id that is present
    removes the first item with that id, and the items before and after it
    stay, in their order. *)
Theorem deleteLibraryItem_local_removes_one
        (remote : RemoteOutcome) (itemId : jsval) (p : Page) :
  (currentUser p = None \/ supabase p = false) ->
  (exists item, In item (libraryItems p)
                /\ strictEq (Item.id item) itemId = true) ->
  exists (before : list LibraryItem) deleted after,
    libraryItems p = (before ++ deleted :: after)%list
    /\ strictEq (Item.id deleted) itemId = true
    /\ Forall (otherId itemId) before
    /\ libraryItems (deleteLibraryItem remote itemId p)
       = (before ++ after)%list.
Proof.
  intros Hlocal [item [Hin Hid]].
  destruct (findIndex itemId (libraryItems p)) as [i|] eqn:Hi.
  - destruct (findIndex_Some itemId (libraryItems p) i Hi)
      as (b & d & a & Hitems & Hlen & Hd & Hb).
    exists b, d, a. repeat split; auto.
    rewrite (deleteLibraryItem_success remote itemId p i Hi)
      by (destruct Hlocal; auto).
    rewrite Hitems, <- Hlen. apply splice1_middle.
  - apply findIndex_None in Hi.
    rewrite Forall_forall in Hi. specialize (Hi item Hin).
    unfold otherId in Hi. congruence.
Qed.

Lemma deleteLibraryItem_local_removes_one_witness :
  exists (before : list LibraryItem) deleted after,
    libraryItems (page [dune; zeroRated; unrated] allFilters)
    = (before ++ deleted :: after)%list
    /\ strictEq (Item.id deleted) (JNum (ofZ 2)) = true
    /\ Forall (otherId (JNum (ofZ 2))) before
    /\ libraryItems (deleteLibraryItem RemoteOk (JNum (ofZ 2))
                       (page [dune; zeroRated; unrated] allFilters))
       = (before ++ after)%list.
Proof.
  apply (deleteLibraryItem_local_removes_one RemoteOk (JNum (ofZ 2))
           (page [dune; zeroRated; unrated] allFilters)).
  - left. reflexivity.
  - exists zeroRated. split; [simpl; auto | reflexivity].
Defined.

(** C10. When the id matches no item, or the session is authenticated and
    the remote delete fails, the call only shows an error notification: the
    page, and with it the collection, is otherwise as before. *)
Theorem deleteLibraryItem_failure_keeps_collection
        (remote : RemoteOutcome) (itemId : jsval) (p : Page) :
  Forall (otherId itemId) (libraryItems p)
  \/ (exists user message,
        currentUser p = Some user /\ supabase p = true
        /\ remote = RemoteError message) ->
  (exists message,
      deleteLibraryItem remote itemId p
      = emit (ShowNotification message "error") p)
  /\ libraryItems (deleteLibraryItem remote itemId p) = libraryItems p
  /\ digitalLibrary (deleteLibraryItem remote itemId p) = digitalLibrary p.
Proof.
  intros H.
  assert (Hex : exists message,
             deleteLibraryItem remote itemId p
             = emit (ShowNotification message "error") p).
  { unfold deleteLibraryItem.
    destruct (findIndex itemId (libraryItems p)) as [i|] eqn:Hi.
    - destruct H as [Hnone | (user & message & Hu & Hs & Hr)].
      + apply findIndex_None in Hnone. congruence.
      + rewrite Hu, Hs, Hr. eauto.
    - eauto. }
  destruct Hex as [message Hm]. rewrite Hm. simpl. eauto.
Qed.

Lemma deleteLibraryItem_failure_keeps_collection_witness :
  (exists message,
      deleteLibraryItem RemoteOk (JStr "2") (page [dune; zeroRated] allFilters)
      = emit (ShowNotification message "error")
             (page [dune; zeroRated] allFilters))
  /\ libraryItems (deleteLibraryItem RemoteOk (JStr "2")
                     (page [dune; zeroRated] allFilters))
     = [dune; zeroRated]
  /\ digitalLibrary (deleteLibraryItem RemoteOk (JStr "2")
                       (page [dune; zeroRated] allFilters))
     = None.
Proof.
  apply (deleteLibraryItem_failure_keeps_collection RemoteOk (JStr "2")
           (page [dune; zeroRated] allFilters)).
  left. repeat constructor.
Defined.

End DeleteFacts.

(* ================================================================= *)
(** ** ISBN selection *)

Module IsbnFacts.
Import JS.
Import Library.
Import Samples.

Lemma strictEq_JStr (v : jsval) (k : string) :
  strictEq v (JStr k) = true <-> v = JStr k.
Proof.
  destruct v; simpl; try (split; [discriminate | discriminate]).
  rewrite String.eqb_eq. split; congruence.
Qed.

Lemma findIdentifier_first (kind : string) (ids : list IndustryIdentifier)
      (i : IndustryIdentifier) :
  firstOfKind kind ids i -> findIdentifier kind ids = Some i.
Proof.
  intros (before & after & -> & Hk & Hb). unfold findIdentifier.
  induction Hb as [|j before Hj _ IH]; simpl.
  - rewrite (proj2 (strictEq_JStr _ _) Hk). reflexivity.
  - destruct (strictEq (id_type j) (JStr kind)) eqn:E; [|exact IH].
    apply strictEq_JStr in E. contradiction.
Qed.

Lemma findIdentifier_none (kind : string) (ids : list IndustryIdentifier) :
  noneOfKind kind ids -> findIdentifier kind ids = None.
Proof.
  intros Hn. unfold findIdentifier.
  induction Hn as [|j ids Hj _ IH]; simpl.
  - reflexivity.
  - destruct (strictEq (id_type j) (JStr kind)) eqn:E; [|exact IH].
    apply strictEq_JStr in E. contradiction.
Qed.

Lemma or_else_truthy (a b : jsval) : truthy a = true -> or_else a b = a.
Proof. intros H. unfold or_else. rewrite H. reflexivity. Qed.

(** C7, as stated, fails for [transformResults]: the array holds an ISBN_13
    entry and an ISBN_10 entry, the ISBN_13 identifier is the empty string,
    and [||] moves on to the ISBN_10 identifier. *)
Lemma transformResults_blank_isbn13_falls_back :
  let ids := [isbn10Entry; blankIsbn13Entry] in
  firstOfKind "ISBN_13" ids blankIsbn13Entry
  /\ firstOfKind "ISBN_10" ids isbn10Entry
  /\ transformResults_isbn (Some ids) = identifier isbn10Entry
  /\ transformResults_isbn (Some ids) <> identifier blankIsbn13Entry.
Proof.
  simpl. repeat split.
  - exists [isbn10Entry], []. repeat split.
    constructor; [discriminate | constructor].
  - exists [], [blankIsbn13Entry]. repeat split. constructor.
  - discriminate.
Qed.

(** C7, amended.  [extractISBN] returns the identifier of the first ISBN_13
    entry when there is one, and otherwise that of the first ISBN_10 entry.
    [transformResults] does the same as long as the identifier it would
    return is truthy, that is, not empty. *)
Theorem isbn13_preferred (ids : list IndustryIdentifier) :
  (forall i13,
      firstOfKind "ISBN_13" ids i13 ->
      GoogleBooksService.extractISBN (Some ids) = identifier i13
      /\ (truthy (identifier i13) = true ->
          transformResults_isbn (Some ids) = identifier i13))
  /\ (forall i10,
        noneOfKind "ISBN_13" ids ->
        firstOfKind "ISBN_10" ids i10 ->
        GoogleBooksService.extractISBN (Some ids) = identifier i10
        /\ (truthy (identifier i10) = true ->
            transformResults_isbn (Some ids) = identifier i10)).
Proof.
  split.
  - intros i13 H13. apply findIdentifier_first in H13.
    unfold GoogleBooksService.extractISBN, transformResults_isbn, optIdentifier.
    rewrite H13. split; [reflexivity|].
    intros Ht. apply or_else_truthy. exact Ht.
  - intros i10 Hn H10.
    apply findIdentifier_none in Hn. apply findIdentifier_first in H10.
    unfold GoogleBooksService.extractISBN, transformResults_isbn, optIdentifier.
    rewrite Hn, H10. split; [reflexivity|].
    intros Ht. unfold or_else at 1. simpl. apply or_else_truthy. exact Ht.
Qed.

Lemma isbn13_preferred_witness :
  (GoogleBooksService.extractISBN (Some [isbn10Entry; isbn13Entry])
   = JStr "9780441172719"
   /\ transformResults_isbn (Some [isbn10Entry; isbn13Entry])
      = JStr "9780441172719")
  /\ (GoogleBooksService.extractISBN (Some [isbn10Entry]) = JStr "0441172717"
      /\ transformResults_isbn (Some [isbn10Entry]) = JStr "0441172717").
Proof.
  split.
  - destruct (proj1 (isbn13_preferred [isbn10Entry; isbn13Entry]) isbn13Entry)
      as [He Ht].
    + exists [isbn10Entry], []. repeat split.
      constructor; [discriminate | constructor].
    + split; [exact He | apply Ht; reflexivity].
  - destruct (proj2 (isbn13_preferred [isbn10Entry]) isbn10Entry) as [He Ht].
    + constructor; [discriminate | constructor].
    + exists [], []. repeat split. constructor.
    + split; [exact He | apply Ht; reflexivity].
Defined.

End IsbnFacts.

(* ================================================================= *)
(** ** Normalizing a Gemini reply *)

Module GeminiFacts.
Import JS.
Import Completion.
Import GeminiService.
Import Samples.

(** *** Occurrences of one character *)

Lemma includes_char_cons (a c : ascii) (r : string) :
  includes (String a r) (String c EmptyString)
  = Ascii.eqb a c || includes r (String c EmptyString).
Proof.
  simpl. destruct (ascii_dec c a) as [->|Hne].
  - rewrite Ascii.eqb_refl. destruct r; reflexivity.
  - assert (E : Ascii.eqb a c = false)
      by (apply Ascii.eqb_neq; congruence).
    rewrite E. reflexivity.
Qed.

Lemma includes_char_app (x y : string) (c : ascii) :
  includes (x ++ y) (String c EmptyString)
  = includes x (String c EmptyString) || includes y (String c EmptyString).
Proof.
  induction x as [|a x IH].
  - simpl. reflexivity.
  - change (String a x ++ y) with (String a (x ++ y)).
    rewrite !includes_char_cons, IH, orb_assoc. reflexivity.
Qed.

(** *** The brace span *)

Lemma fromFirstOpen_skip (pre rest : string) :
  includes pre "{" = false ->
  fromFirstOpen (pre ++ String "{" rest) = Some (String "{" rest).
Proof.
  induction pre as [|a pre IH]; intros H.
  - reflexivity.
  - rewrite includes_char_cons in H. apply orb_false_iff in H.
    destruct H as [Ha Hp]. simpl. rewrite Ha. apply IH. exact Hp.
Qed.

Lemma throughLastClose_none (post : string) :
  includes post "}" = false -> throughLastClose post = None.
Proof.
  induction post as [|a post IH]; intros H.
  - reflexivity.
  - rewrite includes_char_cons in H. apply orb_false_iff in H.
    destruct H as [Ha Hp]. simpl. rewrite (IH Hp), Ha. reflexivity.
Qed.

Lemma throughLastClose_app (x post : string) :
  includes post "}" = false ->
  throughLastClose (x ++ String "}" post) = Some (x ++ "}").
Proof.
  intros H. induction x as [|a x IH].
  - simpl. rewrite (throughLastClose_none post H). reflexivity.
  - simpl. rewrite IH. reflexivity.
Qed.

(** With no ['{'] before the object and no ['}'] after it, the regular
    expression matches the object and nothing else. *)
Lemma jsonMatch_embedded (pre body post : string) :
  includes pre "{" = false ->
  includes post "}" = false ->
  jsonMatch (pre ++ "{" ++ body ++ "}" ++ post) = Some ("{" ++ body ++ "}").
Proof.
  intros Hpre Hpost. unfold jsonMatch.
  change (pre ++ "{" ++ body ++ "}" ++ post)
    with (pre ++ String "{" (body ++ String "}" post)).
  rewrite (fromFirstOpen_skip pre _ Hpre).
  change (String "{" (body ++ String "}" post))
    with (String "{" body ++ String "}" post).
  rewrite (throughLastClose_app _ post Hpost). reflexivity.
Qed.

Lemma fromFirstOpen_inv (text t : string) :
  fromFirstOpen text = Some t ->
  exists pre r, text = pre ++ t /\ t = String "{" r.
Proof.
  revert t. induction text as [|a text IH]; simpl; intros t H.
  - discriminate.
  - destruct (Ascii.eqb a "{") eqn:E.
    + apply Ascii.eqb_eq in E. subst a. injection H as <-.
      exists EmptyString, text. split; reflexivity.
    + destruct (IH t H) as (pre & r & -> & Ht).
      exists (String a pre), r. split; [reflexivity | exact Ht].
Qed.

Lemma throughLastClose_inv (t span : string) :
  throughLastClose t = Some span ->
  exists post, t = span ++ post
               /\ match t, span with
                  | String a _, String b _ => a = b
                  | _, _ => False
                  end.
Proof.
  revert span. induction t as [|a t IH]; simpl; intros span H.
  - discriminate.
  - destruct (throughLastClose t) as [s'|] eqn:E.
    + injection H as <-. destruct (IH s' eq_refl) as (post & -> & _).
      exists post. split; reflexivity.
    + destruct (Ascii.eqb a "}"); [|discriminate].
      injection H as <-. exists t. split; reflexivity.
Qed.

(** What the regular expression matches is a stretch of the text and starts
    with ['{']. *)
Lemma jsonMatch_inv (text span : string) :
  jsonMatch text = Some span ->
  exists pre r post, text = pre ++ span ++ post /\ span = String "{" r.
Proof.
  unfold jsonMatch. intros H.
  destruct (fromFirstOpen text) as [t|] eqn:Ht; [|discriminate].
  destruct (fromFirstOpen_inv text t Ht) as (pre & r & -> & Hr).
  destruct (throughLastClose_inv t span H) as (post & Hpost & Hhead).
  subst t. destruct span as [|b span']; simpl in Hhead; [contradiction|].
  subst b. simpl in Hpost. injection Hpost as Hrest.
  exists pre, span', post. split; [|reflexivity].
  rewrite Hrest. reflexivity.
Qed.

(** *** What [JSON.parse] returns on a text that starts with a brace *)

Lemma parseValue_open_brace (fuel : nat) (r : string) (v : jsval) (rest : string) :
  JSON.parseValue fuel (String "{" r) = Some (v, rest) ->
  exists props, v = JObj props.
Proof.
  destruct fuel as [|f]; simpl; [discriminate|].
  destruct (JSON.skipWs r) as [|c r'] eqn:Er.
  - destruct (JSON.parseMembers f r) as [[kvs rest']|]; [|discriminate].
    intros H. injection H as <- _. eauto.
  - destruct (JSON.parseMembers f r) as [[kvs rest']|];
      destruct c as [[] [] [] [] [] [] [] []];
      intros H; try discriminate; injection H as <- _; eauto.
Qed.

Lemma parse_open_brace (r : string) (v : jsval) :
  JSON.parse (String "{" r) = Some v -> exists props, v = JObj props.
Proof.
  unfold JSON.parse.
  destruct (JSON.parseValue _ (String "{" r)) as [[w rest]|] eqn:E;
    [|discriminate].
  destruct (JSON.skipWs rest); [|discriminate].
  intros H. injection H as <-.
  exact (parseValue_open_brace _ r w rest E).
Qed.

Lemma parseValue_object (fuel : nat) (s : string)
      (props : list (string * jsval)) (rest : string) :
  JSON.parseValue fuel s = Some (JObj props, rest) ->
  exists r, JSON.skipWs s = String "{" r.
Proof.
  destruct fuel as [|f]; simpl; [discriminate|].
  destruct (JSON.skipWs s) as [|c r]; [discriminate|].
  destruct (Ascii.eqb c "{") eqn:E.
  - apply Ascii.eqb_eq in E. subst c. eauto.
  - intros H. exfalso. unfold JSON.expect in H.
    repeat match type of H with
           | context [if ?b then _ else _] => destruct b
           | context [match ?x with _ => _ end] => destruct x
           end; discriminate H.
Qed.

Lemma skipWs_includes (s : string) (c : ascii) :
  includes (JSON.skipWs s) (String c EmptyString) = true ->
  includes s (String c EmptyString) = true.
Proof.
  induction s as [|a s IH]; simpl JSON.skipWs.
  - trivial.
  - destruct (JSON.isJsonWs a); [|trivial].
    intros H. rewrite includes_char_cons, (IH H). apply orb_true_r.
Qed.

Lemma parse_object_includes_brace (s : string) (props : list (string * jsval)) :
  JSON.parse s = Some (JObj props) -> includes s "{" = true.
Proof.
  unfold JSON.parse.
  destruct (JSON.parseValue _ s) as [[w rest]|] eqn:E; [|discriminate].
  destruct (JSON.skipWs rest); [|discriminate].
  intros H. injection H as ->.
  destruct (parseValue_object _ s props rest E) as [r Hr].
  apply skipWs_includes. rewrite Hr, includes_char_cons. reflexivity.
Qed.

(** A text without ['{'] has no stretch that parses as an object. *)
Lemma no_brace_noParseableObject (text : string) :
  includes text "{" = false -> noParseableObject text.
Proof.
  intros H pre s post props -> Hp.
  apply parse_object_includes_brace in Hp.
  rewrite !includes_char_app, Hp in H.
  rewrite orb_true_l, orb_true_r in H. discriminate.
Qed.

(** *** The line scan *)

Lemma scanLine_no_key (bookInfo : BookInfo) (line : string) :
  (forall key, In key recognizedKeys ->
               includes (toLowerCase line) key = false) ->
  scanLine bookInfo line = bookInfo.
Proof.
  intros H. unfold scanLine.
  rewrite (H "title:"), (H "author:"), (H "isbn:"), (H "publisher:"),
    (H "year:"), (H "category:") by (simpl; tauto).
  reflexivity.
Qed.

Lemma fallbackTextParsing_no_key (text : string) :
  noKeyLine text -> fallbackTextParsing text = placeholder.
Proof.
  unfold noKeyLine, fallbackTextParsing. intros H.
  generalize placeholder as b.
  induction (split newline text) as [|line lines IH]; intros b; simpl.
  - reflexivity.
  - rewrite scanLine_no_key.
    + apply IH. intros l k Hl Hk. apply H; [right; exact Hl | exact Hk].
    + intros k Hk. apply H; [left; reflexivity | exact Hk].
Qed.

(** The [try] block falls through to the line scan whenever the brace span
    is missing or rejected by [JSON.parse]. *)
Lemma parseGeminiResponse_fallback (text : string) :
  match jsonMatch text with
  | Some span => JSON.parse span = None
  | None => True
  end ->
  parseGeminiResponse text = fallbackTextParsing text.
Proof.
  unfold parseGeminiResponse, tryParse.
  destruct (jsonMatch text) as [span|]; [|reflexivity].
  intros ->. reflexivity.
Qed.

(** C8. A reply in which no stretch parses as a JSON object and no line
    contains one of the six keys comes back as the placeholder: every
    extracted field null, confidence 50, source 'gemini_ai'.  The function
    is total, so nothing is raised. *)
Theorem parseGeminiResponse_placeholder (text : string) :
  noParseableObject text ->
  noKeyLine text ->
  parseGeminiResponse text
  = {| title := JNull; author := JNull; isbn := JNull; publisher := JNull;
       year := JNull; description := JNull; category := JNull;
       confidence := JNum (ofZ 50); source := JStr "gemini_ai" |}.
Proof.
  intros Hjson Hkeys.
  rewrite parseGeminiResponse_fallback.
  - exact (fallbackTextParsing_no_key text Hkeys).
  - destruct (jsonMatch text) as [span|] eqn:Hm; [|exact I].
    destruct (jsonMatch_inv text span Hm) as (pre & r & post & Htext & Hspan).
    destruct (JSON.parse span) as [v|] eqn:Hp; [|reflexivity].
    exfalso. rewrite Hspan in Hp.
    destruct (parse_open_brace r v Hp) as [props ->].
    rewrite <- Hspan in Hp. exact (Hjson pre span post props Htext Hp).
Qed.

Lemma parseGeminiResponse_placeholder_witness :
  parseGeminiResponse "I could not make out any text on this cover."
  = {| title := JNull; author := JNull; isbn := JNull; publisher := JNull;
       year := JNull; description := JNull; category := JNull;
       confidence := JNum (ofZ 50); source := JStr "gemini_ai" |}.
Proof.
  apply (parseGeminiResponse_placeholder
           "I could not make out any text on this cover.").
  - apply no_brace_noParseableObject. reflexivity.
  - intros line key Hl Hk. simpl in Hl. destruct Hl as [<- | []].
    simpl in Hk.
    repeat (destruct Hk as [<- | Hk]; [reflexivity|]). contradiction.
Defined.

(** C2, as stated, fails: the reply holds a valid object, the prose after
    it uses braces, the match runs to the last ['}'], [JSON.parse] rejects
    it, and the line scan finds no key; the title comes back null. *)
Lemma parseGeminiResponse_brace_in_trailing_prose :
  let text := "Result: " ++ duneObject ++ " (fields read: {title, author})" in
  JSON.parse duneObject = Some (JObj duneProps)
  /\ jsonMatch text = Some (duneObject ++ " (fields read: {title, author}")
  /\ parseGeminiResponse text = placeholder
  /\ title (parseGeminiResponse text) <> JStr "Dune".
Proof.
  simpl. repeat split; try reflexivity. vm_compute. discriminate.
Qed.

(** C2, amended.  In a text with a ['{'] and a ['}'] after it, what is
    parsed is the stretch from the first ['{'] to the last ['}']: braces
    are not balanced.  When that stretch is a JSON text for an object, which
    it is for an object with no ['{'] in the prose before it and no ['}'] in
    the prose after it, the result is built from the object's properties: a
    falsy value becomes null, a truthy [year] or [confidence] goes through
    [parseInt], and [source] is 'gemini_ai'; the prose on both sides is
    ignored.  When the stretch is not a JSON text, the result is that of
    the line scan. *)
Theorem parseGeminiResponse_embedded_object (pre body post : string) :
  includes pre "{" = false ->
  includes post "}" = false ->
  jsonMatch (pre ++ "{" ++ body ++ "}" ++ post) = Some ("{" ++ body ++ "}")
  /\ (forall props : list (string * jsval),
        JSON.parse ("{" ++ body ++ "}") = Some (JObj props) ->
        parseGeminiResponse (pre ++ "{" ++ body ++ "}" ++ post)
        = {| title := or_else (getProp props "title") JNull;
             author := or_else (getProp props "author") JNull;
             isbn := or_else (getProp props "isbn") JNull;
             publisher := or_else (getProp props "publisher") JNull;
             year := if truthy (getProp props "year")
                     then JNum (parseInt (getProp props "year")) else JNull;
             description := or_else (getProp props "description") JNull;
             category := or_else (getProp props "category") JNull;
             confidence := if truthy (getProp props "confidence")
                           then JNum (parseInt (getProp props "confidence"))
                           else JNull;
             source := JStr "gemini_ai" |})
  /\ (JSON.parse ("{" ++ body ++ "}") = None ->
      parseGeminiResponse (pre ++ "{" ++ body ++ "}" ++ post)
      = fallbackTextParsing (pre ++ "{" ++ body ++ "}" ++ post)).
Proof.
  intros Hpre Hpost.
  pose proof (jsonMatch_embedded pre body post Hpre Hpost) as Hm.
  split; [exact Hm|]. split.
  - intros props Hparse.
    unfold parseGeminiResponse, tryParse. rewrite Hm, Hparse. reflexivity.
  - intros Hparse. apply parseGeminiResponse_fallback.
    rewrite Hm. exact Hparse.
Qed.

Lemma parseGeminiResponse_embedded_object_witness :
  jsonMatch ("Here is what I read: " ++ "{" ++ duneBody ++ "}"
             ++ " Let me know if you need more.")
  = Some ("{" ++ duneBody ++ "}")
  /\ parseGeminiResponse ("Here is what I read: " ++ "{" ++ duneBody ++ "}"
                          ++ " Let me know if you need more.")
     = {| title := JStr "Dune"; author := JStr "Frank Herbert"; isbn := JNull;
          publisher := JNull; year := JNum (ofZ 1965); description := JNull;
          category := JNull; confidence := JNum (ofZ 90);
          source := JStr "gemini_ai" |}
  /\ parseGeminiResponse
       ("Result: " ++ "{" ++ (duneBody ++ "} (fields read: {title, author")
        ++ "}" ++ ")")
     = fallbackTextParsing
         ("Result: " ++ "{" ++ (duneBody ++ "} (fields read: {title, author")
          ++ "}" ++ ")").
Proof.
  destruct (parseGeminiResponse_embedded_object
              "Here is what I read: " duneBody " Let me know if you need more."
              eq_refl eq_refl) as (H1 & H2 & _).
  destruct (parseGeminiResponse_embedded_object
              "Result: " (duneBody ++ "} (fields read: {title, author") ")"
              eq_refl eq_refl) as (_ & _ & H3).
  split; [exact H1|]. split.
  - exact (H2 duneProps eq_refl).
  - apply H3. reflexivity.
Defined.

End GeminiFacts.

(* ================================================================= *)
(** ** Digit strings *)

Module DigitFacts.
Import JS.

Lemma isDigit_digitVal (c : ascii) :
  isDigit c = true -> exists d, digitVal c = Some d /\ (0 <= d < 10)%Z.
Proof.
  destruct c as [[] [] [] [] [] [] [] []]; intros H;
    try discriminate H; eexists; (split; [vm_compute; reflexivity | lia]).
Qed.

Lemma digitVal_isDigit (c : ascii) (d : Z) :
  digitVal c = Some d -> (d <? 10)%Z = true -> isDigit c = true.
Proof.
  destruct c as [[] [] [] [] [] [] [] []]; vm_compute; intros H;
    try discriminate H; injection H as <-; intros H; try discriminate H;
    reflexivity.
Qed.

Lemma isDigit_plain (c : ascii) :
  isDigit c = true ->
  isWhiteSpace c = false /\ c <> "-"%char /\ c <> "+"%char
  /\ c <> "x"%char /\ c <> "X"%char.
Proof.
  destruct c as [[] [] [] [] [] [] [] []]; intros H; try discriminate H;
    repeat split; discriminate.
Qed.

(** A string of decimal digits continues an accumulated value. *)
Lemma digitsPrefix_digits (s : string) :
  allDigits 10 s = true ->
  forall a, (0 <= a)%Z ->
  exists z, digitsPrefix 10 s (Some a) = Some z
            /\ (a * 10 ^ Z.of_nat (String.length s) <= z
                < (a + 1) * 10 ^ Z.of_nat (String.length s))%Z.
Proof.
  induction s as [|c s IH]; intros Hs a Ha.
  - exists a. simpl. split; [reflexivity | lia].
  - simpl in Hs. destruct (digitVal c) as [d|] eqn:Hd; [|discriminate].
    apply andb_true_iff in Hs. destruct Hs as [Hlt Hs].
    assert (Hc : isDigit c = true) by exact (digitVal_isDigit c d Hd Hlt).
    destruct (isDigit_digitVal c Hc) as [d' [Hd' Hr]].
    rewrite Hd in Hd'. injection Hd' as <-.
    destruct (IH Hs (a * 10 + d)%Z ltac:(lia)) as [z [Hz Hb]].
    exists z. split.
    + simpl. rewrite Hd, Hlt. exact Hz.
    + change (String.length (String c s)) with (S (String.length s)).
      rewrite Nat2Z.inj_succ, Z.pow_succ_r by lia.
      assert (Hp : (0 < 10 ^ Z.of_nat (String.length s))%Z)
        by (apply Z.pow_pos_nonneg; lia).
      nia.
Qed.

(** [parseInt] of a non-empty string of decimal digits is the Number value
    of the integer they spell. *)
Lemma parseIntStr_digits (s : string) :
  allDigits 10 s = true -> s <> "" ->
  parseIntStr s = integerToNumber (decValue s)
  /\ (0 <= decValue s < 10 ^ Z.of_nat (String.length s))%Z.
Proof.
  intros Hs Hne. destruct s as [|c s]; [contradiction|].
  pose proof Hs as Hs'. simpl in Hs'.
  destruct (digitVal c) as [d|] eqn:Hd; [|discriminate].
  apply andb_true_iff in Hs'. destruct Hs' as [Hlt Hrest].
  assert (Hc : isDigit c = true) by exact (digitVal_isDigit c d Hd Hlt).
  destruct (isDigit_digitVal c Hc) as [d' [Hd' Hr]].
  rewrite Hd in Hd'. injection Hd' as <-.
  destruct (isDigit_plain c Hc) as (Hws & Hm & Hp & _).
  destruct (digitsPrefix_digits s Hrest d ltac:(lia)) as [z [Hz Hb]].
  assert (Hdp : digitsPrefix 10 (String c s) None = Some z)
    by (simpl; rewrite Hd, Hlt; exact Hz).
  assert (Hbound : (0 <= z < 10 ^ Z.of_nat (String.length (String c s)))%Z).
  { change (String.length (String c s)) with (S (String.length s)).
    rewrite Nat2Z.inj_succ, Z.pow_succ_r by lia.
    assert (Hpos : (0 < 10 ^ Z.of_nat (String.length s))%Z)
      by (apply Z.pow_pos_nonneg; lia).
    nia. }
  assert (Hdec : decValue (String c s) = z)
    by (unfold decValue; rewrite Hdp; reflexivity).
  rewrite Hdec. split; [|exact Hbound].
  unfold parseIntStr. simpl trimStart. rewrite Hws.
  assert (Hsign : stripSign (String c s) = (1%Z, String c s)).
  { unfold stripSign.
    destruct c as [[] [] [] [] [] [] [] []]; try reflexivity;
      exfalso; auto. }
  rewrite Hsign.
  assert (Hhex : isHexPrefix (String c s) = None).
  { destruct s as [|c2 s2]; [destruct c as [[] [] [] [] [] [] [] []]; reflexivity|].
    simpl in Hrest. destruct (digitVal c2) as [d2|] eqn:Hd2; [|discriminate].
    apply andb_true_iff in Hrest. destruct Hrest as [Hlt2 _].
    pose proof (digitVal_isDigit c2 d2 Hd2 Hlt2) as Hc2.
    destruct (isDigit_plain c2 Hc2) as (_ & _ & _ & Hx & HX).
    unfold isHexPrefix.
    destruct c as [[] [] [] [] [] [] [] []]; try reflexivity;
      destruct c2 as [[] [] [] [] [] [] [] []]; try reflexivity;
      exfalso; auto. }
  rewrite Hhex, Hdp, Z.mul_1_l. reflexivity.
Qed.

Lemma spanDigits_digits (s : string) :
  allDigits 10 (fst (spanDigits s)) = true.
Proof.
  induction s as [|c s IH]; simpl; [reflexivity|].
  destruct (isDigit c) eqn:Hc; [|reflexivity].
  destruct (spanDigits s) as [d rest]. simpl in *.
  destruct (isDigit_digitVal c Hc) as [v [Hv Hr]]. rewrite Hv.
  apply andb_true_iff. split; [apply Z.ltb_lt; lia | exact IH].
Qed.

Lemma firstDigitRun_digits (text run : string) :
  GoogleScholarService.firstDigitRun text = Some run ->
  allDigits 10 run = true /\ run <> "".
Proof.
  revert run. induction text as [|c text IH]; intros run; [discriminate|].
  cbn [GoogleScholarService.firstDigitRun].
  destruct (isDigit c) eqn:Hc; [|apply IH].
  intros H. injection H as <-. split.
  - exact (spanDigits_digits (String c text)).
  - simpl. rewrite Hc. destruct (spanDigits text). discriminate.
Qed.

Lemma yearMatch_digits (line y : string) :
  GeminiService.yearMatch line = Some y ->
  allDigits 10 y = true /\ String.length y = 4%nat.
Proof.
  induction line as [|a line IH]; [discriminate|].
  destruct line as [|b [|c [|d rest]]]; try discriminate.
  change (GeminiService.yearMatch (String a (String b (String c (String d rest)))))
    with (if isDigit a && isDigit b && isDigit c && isDigit d
          then Some (String a (String b (String c (String d EmptyString))))
          else GeminiService.yearMatch (String b (String c (String d rest)))).
  destruct (isDigit a && isDigit b && isDigit c && isDigit d) eqn:E.
  - intros H. injection H as <-.
    apply andb_true_iff in E. destruct E as [E Hd].
    apply andb_true_iff in E. destruct E as [E Hc].
    apply andb_true_iff in E. destruct E as [Ha Hb].
    split; [|reflexivity]. simpl.
    destruct (isDigit_digitVal a Ha) as [va [-> Ra]].
    destruct (isDigit_digitVal b Hb) as [vb [-> Rb]].
    destruct (isDigit_digitVal c Hc) as [vc [-> Rc]].
    destruct (isDigit_digitVal d Hd) as [vd [-> Rd]].
    repeat (apply andb_true_iff; split); try reflexivity;
      apply Z.ltb_lt; lia.
  - exact IH.
Qed.

(** A four-digit match read by [parseInt] is an integer from 0 to 9999. *)
Lemma yearMatch_value (line y : string) :
  GeminiService.yearMatch line = Some y ->
  exists z, parseIntStr y = ofZ z /\ (0 <= z <= 9999)%Z.
Proof.
  intros H. destruct (yearMatch_digits line y H) as [Hd Hl].
  assert (Hne : y <> "") by (intros ->; discriminate Hl).
  destruct (parseIntStr_digits y Hd Hne) as [Hp Hb].
  rewrite Hl in Hb. change (10 ^ Z.of_nat 4)%Z with 10000%Z in Hb.
  exists (decValue y). split; [|lia].
  rewrite Hp. apply NumberFacts.integerToNumber_exact.
  change (2 ^ 53)%Z with 9007199254740992%Z. lia.
Qed.

(** A run of digits read by [parseInt] is a non-negative integer, or
    Infinity when the integer is beyond the largest double. *)
Lemma parseIntStr_digits_range (s : string) :
  allDigits 10 s = true -> s <> "" ->
  (exists n, parseIntStr s = ofZ n /\ (0 <= n)%Z)
  \/ parseIntStr s = Inf false.
Proof.
  intros Hs Hne. destruct (parseIntStr_digits s Hs Hne) as [Hp Hb].
  rewrite Hp.
  destruct (NumberFacts.integerToNumber_cases (decValue s))
    as [(m & Hm & Hpos & _) | Hinf].
  - left. exists m. split; [exact Hm | apply Hpos; lia].
  - right. rewrite Hinf.
    assert (E : (decValue s <? 0)%Z = false) by (apply Z.ltb_ge; lia).
    rewrite E. reflexivity.
Qed.

End DigitFacts.

(* ================================================================= *)
(** ** Book formatting helpers *)

Module BookFacts.
Import JS.
Import Completion.
Import BookFormat.

Lemma split_dash_digits (y rest : string) :
  allDigits 10 y = true ->
  split "-" (y ++ String "-" rest) = y :: split "-" rest
  /\ split "-" y = [y].
Proof.
  induction y as [|c y IH]; intros Hy.
  - split; reflexivity.
  - simpl in Hy. destruct (digitVal c) as [d|] eqn:Hd; [|discriminate].
    apply andb_true_iff in Hy. destruct Hy as [Hlt Hy].
    destruct (DigitFacts.isDigit_plain c (DigitFacts.digitVal_isDigit c d Hd Hlt))
      as (_ & Hm & _).
    assert (E : Ascii.eqb c "-" = false) by (apply Ascii.eqb_neq; exact Hm).
    destruct (IH Hy) as [H1 H2]. simpl. rewrite E, H1, H2.
    split; reflexivity.
Qed.

(** X1. A date that starts with digits, alone or followed by ['-'] and
    anything, gives the Number those digits spell: "2013-05-01" and "2013"
    both give 2013.  Up to 2^53 that is the integer itself; beyond, the
    double nearest to it, which for a long enough run is Infinity. *)
Theorem extractYear_leading_digits (y rest : string) :
  allDigits 10 y = true ->
  y <> "" ->
  extractYear (JStr (y ++ "-" ++ rest)) = extractYear (JStr y)
  /\ extractYear (JStr y) = Normal (JNum (integerToNumber (decValue y)))
  /\ ((decValue y <= 2 ^ 53)%Z ->
      extractYear (JStr y) = Normal (JNum (ofZ (decValue y)))).
Proof.
  intros Hy Hne.
  destruct (split_dash_digits y rest Hy) as [H1 H2].
  destruct (DigitFacts.parseIntStr_digits y Hy Hne) as [Hp Hb].
  assert (E : extractYear (JStr y)
              = Normal (JNum (integerToNumber (decValue y)))).
  { destruct y as [|c y]; [contradiction|].
    unfold extractYear. rewrite H2.
    change (truthy (JStr (String c y))) with true.
    simpl negb. cbv iota. rewrite Hp.
    pose proof (NumberFacts.integerToNumber_not_NaN (decValue (String c y))) as Hn.
    destruct (integerToNumber (decValue (String c y)));
      [contradiction | reflexivity | reflexivity]. }
  split; [|split].
  - rewrite E. destruct y as [|c y]; [contradiction|].
    unfold extractYear.
    change (String c y ++ "-" ++ rest) with (String c y ++ String "-" rest).
    rewrite H1.
    change (truthy (JStr (String c y ++ String "-" rest))) with true.
    simpl negb. cbv iota. rewrite Hp.
    pose proof (NumberFacts.integerToNumber_not_NaN (decValue (String c y))) as Hn.
    destruct (integerToNumber (decValue (String c y)));
      [contradiction | reflexivity | reflexivity].
  - exact E.
  - intros Hle. rewrite E.
    rewrite NumberFacts.integerToNumber_exact; [reflexivity|].
    rewrite Z.abs_eq; lia.
Qed.

Lemma extractYear_leading_digits_witness :
  extractYear (JStr ("2013" ++ "-" ++ "05-01")) = extractYear (JStr "2013")
  /\ extractYear (JStr "2013") = Normal (JNum (ofZ 2013)).
Proof.
  destruct (extractYear_leading_digits "2013" "05-01") as (H1 & _ & H3).
  - reflexivity.
  - discriminate.
  - split; [exact H1|]. apply H3. vm_compute. discriminate.
Defined.

Lemma digitVal_nonneg (c : ascii) (d : Z) : digitVal c = Some d -> (0 <= d)%Z.
Proof.
  unfold digitVal.
  repeat match goal with
         | |- context [if ?b then _ else _] => destruct b
         end; intros H; try discriminate H; injection H as <-; lia.
Qed.

Lemma digitsPrefix_nonneg (radix : Z) (s : string) :
  (0 <= radix)%Z ->
  forall acc z,
    (forall a, acc = Some a -> (0 <= a)%Z) ->
    digitsPrefix radix s acc = Some z -> (0 <= z)%Z.
Proof.
  intros Hr. induction s as [|c s IH]; intros acc z Hacc; simpl.
  - intros H. exact (Hacc z H).
  - destruct (digitVal c) as [d|] eqn:Hd; [|intros H; exact (Hacc z H)].
    pose proof (digitVal_nonneg c d Hd) as Hd0.
    destruct (d <? radix)%Z; [|intros H; exact (Hacc z H)].
    apply IH. intros a Ha. injection Ha as <-.
    destruct acc as [a0|]; [|exact Hd0].
    specialize (Hacc a0 eq_refl). nia.
Qed.

Lemma split_head_no_sep (sep : ascii) (s : string) :
  exists first rest,
    split sep s = first :: rest
    /\ includes first (String sep EmptyString) = false.
Proof.
  induction s as [|c s IH]; simpl.
  - exists EmptyString, []. split; reflexivity.
  - destruct (Ascii.eqb c sep) eqn:E.
    + exists EmptyString, (split sep s). split; reflexivity.
    + destruct IH as (first & rest & -> & Hf).
      exists (String c first), rest. split; [reflexivity|].
      rewrite GeminiFacts.includes_char_cons, E, Hf. reflexivity.
Qed.

Lemma trimStart_no_char (s : string) (c : ascii) :
  includes s (String c EmptyString) = false ->
  includes (trimStart s) (String c EmptyString) = false.
Proof.
  induction s as [|a s IH]; intros H; simpl; [exact H|].
  destruct (isWhiteSpace a); [|exact H].
  apply IH. rewrite GeminiFacts.includes_char_cons in H.
  apply orb_false_iff in H. exact (proj2 H).
Qed.

(** [parseInt] of a string without ['-'] is never negative. *)
Lemma parseIntStr_no_minus (s : string) :
  includes s "-" = false ->
  parseIntStr s = NaN
  \/ (exists n, parseIntStr s = ofZ n /\ (0 <= n)%Z)
  \/ parseIntStr s = Inf false.
Proof.
  intros H. apply trimStart_no_char in H. unfold parseIntStr.
  assert (Hsign : fst (stripSign (trimStart s)) = 1%Z).
  { destruct (trimStart s) as [|a r]; [reflexivity|].
    rewrite GeminiFacts.includes_char_cons in H.
    apply orb_false_iff in H. destruct H as [Ha _].
    unfold stripSign.
    destruct a as [[] [] [] [] [] [] [] []]; try reflexivity; discriminate Ha. }
  destruct (stripSign (trimStart s)) as [sign r]. simpl in Hsign. subst sign.
  assert (Hround : forall z, (0 <= z)%Z ->
            (exists n, integerToNumber (1 * z) = ofZ n /\ (0 <= n)%Z)
            \/ integerToNumber (1 * z) = Inf false).
  { intros z Hz. rewrite Z.mul_1_l.
    destruct (NumberFacts.integerToNumber_cases z) as [(m & Hm & Hpos & _) | Hinf].
    - left. exists m. split; [exact Hm | exact (Hpos Hz)].
    - right. rewrite Hinf.
      assert (E : (z <? 0)%Z = false) by (apply Z.ltb_ge; exact Hz).
      rewrite E. reflexivity. }
  destruct (isHexPrefix r) as [h|].
  - destruct (digitsPrefix 16 h None) as [z|] eqn:E; [|left; reflexivity].
    right. apply Hround.
    apply (digitsPrefix_nonneg 16 h ltac:(lia) None z); [discriminate | exact E].
  - destruct (digitsPrefix 10 r None) as [z|] eqn:E; [|left; reflexivity].
    right. apply Hround.
    apply (digitsPrefix_nonneg 10 r ltac:(lia) None z); [discriminate | exact E].
Qed.

(** X2. When [extractYear] returns, it returns null, a non-negative
    integer, or Infinity (for a run of digits beyond the largest double):
    never NaN and never a negative number.  A missing or empty date gives
    null, and a truthy date that is not a string makes the call throw. *)
Theorem extractYear_never_NaN (publishedDate : jsval) :
  match extractYear publishedDate with
  | Normal v =>
      v = JNull
      \/ (exists n, v = JNum (ofZ n) /\ (0 <= n)%Z)
      \/ v = JNum (Inf false)
  | Throw e =>
      e = TypeError /\ truthy publishedDate = true
      /\ forall s, publishedDate <> JStr s
  end
  /\ (truthy publishedDate = false -> extractYear publishedDate = Normal JNull).
Proof.
  unfold extractYear.
  destruct (truthy publishedDate) eqn:Ht; simpl negb; cbv iota.
  - split; [|discriminate].
    destruct publishedDate as [| |b|n|s|l|o];
      try (repeat split; try reflexivity; discriminate).
    destruct (split_head_no_sep "-" s) as (first & rest & -> & Hf).
    destruct (parseIntStr_no_minus first Hf) as [-> | [(n & -> & Hn) | ->]].
    + left. reflexivity.
    + right. left. exists n. split; [reflexivity | exact Hn].
    + right. right. reflexivity.
  - split; [left; reflexivity | reflexivity].
Qed.

Lemma extractYear_never_NaN_witness :
  extractYear (JStr "") = Normal JNull
  /\ extractYear JUndefined = Normal JNull.
Proof.
  split.
  - apply (extractYear_never_NaN (JStr "")). reflexivity.
  - apply (extractYear_never_NaN JUndefined). reflexivity.
Defined.

Lemma length_app_string (a b : string) :
  String.length (a ++ b) = (String.length a + String.length b)%nat.
Proof. induction a as [|c a IH]; simpl; [reflexivity | rewrite IH; reflexivity]. Qed.

Lemma length_trimStart (s : string) :
  (String.length (trimStart s) <= String.length s)%nat.
Proof.
  induction s as [|c s IH]; simpl; [lia|].
  destruct (isWhiteSpace c); simpl; lia.
Qed.

Lemma length_trimEnd (s : string) :
  (String.length (trimEnd s) <= String.length s)%nat.
Proof.
  induction s as [|c s IH]; simpl; [lia|].
  destruct (trimEnd s); [destruct (isWhiteSpace c)|]; simpl in *; lia.
Qed.

Lemma length_trim (s : string) :
  (String.length (trim s) <= String.length s)%nat.
Proof.
  unfold trim. pose proof (length_trimEnd (trimStart s)).
  pose proof (length_trimStart s). lia.
Qed.

Lemma length_substring0 (n : nat) (s : string) :
  (String.length (substring 0 n s) <= n)%nat.
Proof.
  revert s. induction n as [|n IH]; intros s.
  - destruct s; simpl; lia.
  - destruct s as [|c s]; simpl; [lia|]. specialize (IH s). lia.
Qed.

(** X3. [truncateText] never returns more than [maxLength + 3] characters,
    and returns a text of at most [maxLength] characters as it is. *)
Theorem truncateText_bounded (text : string) (maxLength : nat) :
  (String.length (truncateText text maxLength) <= maxLength + 3)%nat
  /\ ((String.length text <= maxLength)%nat ->
      truncateText text maxLength = text).
Proof.
  unfold truncateText. split.
  - destruct (text =? "") eqn:E; simpl.
    + apply String.eqb_eq in E. subst. simpl. lia.
    + destruct (Nat.leb_spec (String.length text) maxLength); [lia|].
      rewrite length_app_string. simpl.
      pose proof (length_trim (substring 0 maxLength text)).
      pose proof (length_substring0 maxLength text). lia.
  - intros H. apply Nat.leb_le in H. rewrite H, orb_true_r. reflexivity.
Qed.

Lemma truncateText_bounded_witness :
  (String.length (truncateText "A handbook of agile software craftsmanship" 10)
   <= 10 + 3)%nat
  /\ ((String.length "A handbook of agile software craftsmanship" <= 50)%nat ->
      truncateText "A handbook of agile software craftsmanship" 50
      = "A handbook of agile software craftsmanship").
Proof.
  split.
  - apply (truncateText_bounded "A handbook of agile software craftsmanship" 10).
  - apply (truncateText_bounded "A handbook of agile software craftsmanship" 50).
Defined.

(** X4. [getBestCoverImage] returns null or a truthy link, never an empty
    or undefined one: it is truthy exactly when one of the five links is,
    and a truthy [large] link is the one returned. *)
Theorem getBestCoverImage_null_or_truthy (l : ImageLinks) :
  (getBestCoverImage (Some l) = JNull
   \/ truthy (getBestCoverImage (Some l)) = true)
  /\ truthy (getBestCoverImage (Some l))
     = truthy (large l) || truthy (medium l) || truthy (small l)
       || truthy (thumbnail l) || truthy (smallThumbnail l)
  /\ (truthy (large l) = true -> getBestCoverImage (Some l) = large l).
Proof.
  unfold getBestCoverImage, or_else.
  destruct (truthy (large l)) eqn:E1; simpl.
  { rewrite E1. auto. }
  destruct (truthy (medium l)) eqn:E2; simpl.
  { rewrite E2. repeat split; auto. discriminate. }
  destruct (truthy (small l)) eqn:E3; simpl.
  { rewrite E3. repeat split; auto. discriminate. }
  destruct (truthy (thumbnail l)) eqn:E4; simpl.
  { rewrite E4. repeat split; auto. discriminate. }
  destruct (truthy (smallThumbnail l)) eqn:E5; simpl.
  { rewrite E5. repeat split; auto. discriminate. }
  repeat split; auto. discriminate.
Qed.

Lemma getBestCoverImage_null_or_truthy_witness :
  getBestCoverImage
    (Some {| large := JStr "https://books.example/l.jpg"; medium := JUndefined;
             small := JUndefined; thumbnail := JStr "https://books.example/t.jpg";
             smallThumbnail := JUndefined |})
  = JStr "https://books.example/l.jpg".
Proof.
  apply (getBestCoverImage_null_or_truthy
           {| large := JStr "https://books.example/l.jpg"; medium := JUndefined;
              small := JUndefined;
              thumbnail := JStr "https://books.example/t.jpg";
              smallThumbnail := JUndefined |}).
  reflexivity.
Defined.

End BookFacts.

(* ================================================================= *)
(** ** Image validation *)

Module ImageFacts.
Import JS.
Import ImageCheck.

(** X5. An image is accepted exactly when its MIME type is one of
    image/jpeg, image/jpg, image/png, image/webp and its base64 text has at
    most 13981013 characters (three quarters of that is the 10 MB limit). *)
Theorem validateImage_valid_iff (imageBase64 : string) (mimeType : jsval) :
  valid (validateImage imageBase64 mimeType) = true
  <-> (exists t, In t allowedTypes /\ mimeType = JStr t)
      /\ (Z.of_nat (String.length imageBase64) <= 13981013)%Z.
Proof.
  unfold validateImage.
  destruct (existsb (fun t => strictEq (JStr t) mimeType) allowedTypes) eqn:E;
    simpl negb; cbv iota.
  - apply existsb_exists in E. destruct E as [t [Hin Heq]].
    assert (Hm : mimeType = JStr t).
    { destruct mimeType; simpl in Heq; try discriminate.
      apply String.eqb_eq in Heq. congruence. }
    unfold number_gt, number_lt, ofZ.
    destruct (Qle_bool _ _) eqn:Q; cbv iota; cbn [valid].
    + split; [|reflexivity]. intros _.
      split; [exists t; split; [exact Hin | exact Hm]|].
      apply Qle_bool_iff in Q. unfold Qle, Qdiv, Qmult, Qinv, inject_Z in Q.
      simpl in Q. lia.
    + split; [discriminate|]. intros [_ Hlen]. exfalso.
      assert (Q' : Qle_bool
                     ((Z.of_nat (String.length imageBase64) * 3 # 1) / (4 # 1))
                     (inject_Z (10 * 1024 * 1024)) = true).
      { apply Qle_bool_iff. unfold Qle, Qdiv, Qmult, Qinv, inject_Z.
        simpl. lia. }
      congruence.
  - cbn [valid]. split; [discriminate|]. intros [[t [Hin ->]] _]. exfalso.
    assert (E' : existsb (fun t0 => strictEq (JStr t0) (JStr t)) allowedTypes
                 = true).
    { apply existsb_exists. exists t. split; [exact Hin|].
      simpl. apply String.eqb_refl. }
    congruence.
Qed.

End ImageFacts.

(* ================================================================= *)
(** ** Google Scholar fallback scraping *)

Module ScholarFacts.
Import JS.
Import GoogleScholarService.

Lemma scrape_paper (e : Element) (paper : Paper) :
  scrape e = Some paper ->
  title paper <> "" /\ title paper <> "Unknown Title"
  /\ ((exists n, citedBy paper = ofZ n /\ (0 <= n)%Z)
      \/ citedBy paper = Inf false)
  /\ (year paper = JNull
      \/ exists y, year paper = JNum (ofZ y) /\ (0 <= y <= 9999)%Z).
Proof.
  unfold scrape.
  set (t := orString (trim (titleText e)) "Unknown Title").
  destruct (negb (t =? "") && negb (t =? "Unknown Title")) eqn:E;
    [|discriminate].
  intros H. injection H as <-. cbn [title citedBy year].
  apply andb_true_iff in E. destruct E as [E1 E2].
  apply negb_true_iff in E1, E2.
  apply String.eqb_neq in E1, E2.
  repeat split; auto.
  - destruct (firstDigitRun (citedByText e)) as [run|] eqn:Hr.
    + destruct (DigitFacts.firstDigitRun_digits _ _ Hr) as [Hd Hne].
      unfold orString. apply String.eqb_neq in Hne. rewrite Hne.
      apply String.eqb_neq in Hne.
      exact (DigitFacts.parseIntStr_digits_range run Hd Hne).
    + left. exists 0%Z. split; [reflexivity | lia].
  - destruct (GeminiService.yearMatch (authorsText e)) as [y|] eqn:Hy.
    + right. destruct (DigitFacts.yearMatch_value _ _ Hy) as [z [Hz Hb]].
      exists z. rewrite Hz. auto.
    + left. reflexivity.
Qed.

Lemma eachElement_invariant (P : Paper -> Prop) (maxResults : Z) :
  (forall e paper, scrape e = Some paper -> P paper) ->
  forall elements papers,
    Forall P papers -> Forall P (eachElement maxResults elements papers).
Proof.
  intros HP. induction elements as [|e rest IH]; intros papers Hp; simpl.
  - exact Hp.
  - destruct (maxResults <=? Z.of_nat (List.length papers))%Z; [exact Hp|].
    destruct (scrape e) as [paper|] eqn:Hs.
    + apply IH. apply Forall_app. split; [exact Hp|].
      constructor; [exact (HP e paper Hs) | constructor].
    + apply IH. exact Hp.
Qed.

Lemma eachElement_length (maxResults : Z) :
  forall elements papers,
    (Z.of_nat (List.length (eachElement maxResults elements papers))
     <= Z.max maxResults (Z.of_nat (List.length papers)))%Z
    /\ (List.length (eachElement maxResults elements papers)
        <= List.length papers + List.length elements)%nat.
Proof.
  induction elements as [|e rest IH]; intros papers; simpl.
  - lia.
  - destruct (Z.leb_spec maxResults (Z.of_nat (List.length papers))); [lia|].
    destruct (scrape e) as [paper|].
    + destruct (IH (papers ++ [paper])%list) as [H1 H2].
      rewrite length_app in H1, H2. simpl in H1, H2. lia.
    + destruct (IH papers) as [H1 H2]. lia.
Qed.

(** X6. [fallbackSearch] returns at most [maxResults] papers (none when
    [maxResults] is 0 or negative) and never more than there are result
    elements; every paper it returns has a title that is neither empty nor
    'Unknown Title'. *)
Theorem fallbackSearch_capped_and_titled
        (elements : list Element) (maxResults : Z) :
  (Z.of_nat (List.length (fallbackSearch elements maxResults))
   <= Z.max 0 maxResults)%Z
  /\ (List.length (fallbackSearch elements maxResults)
      <= List.length elements)%nat
  /\ Forall (fun paper => title paper <> "" /\ title paper <> "Unknown Title")
            (fallbackSearch elements maxResults).
Proof.
  unfold fallbackSearch.
  destruct (eachElement_length maxResults elements []) as [H1 H2].
  simpl in H1, H2. repeat split.
  - lia.
  - exact H2.
  - apply eachElement_invariant; [|constructor].
    intros e paper Hs. destruct (scrape_paper e paper Hs) as (A & B & _).
    split; assumption.
Qed.


End ScholarFacts.

(* ================================================================= *)
(** ** The line scan of a Gemini reply *)

Module FallbackFacts.
Import JS.
Import Completion.
Import GeminiService.

Lemma scanLine_fixed_fields (b : BookInfo) (line : string) :
  confidence (scanLine b line) = confidence b
  /\ description (scanLine b line) = description b
  /\ source (scanLine b line) = source b.
Proof.
  unfold scanLine.
  repeat match goal with
         | |- context [if ?c then _ else _] => destruct c
         end; simpl; auto.
Qed.

Lemma fold_scanLine_fixed_fields (lines : list string) (b : BookInfo) :
  confidence (fold_left scanLine lines b) = confidence b
  /\ description (fold_left scanLine lines b) = description b
  /\ source (fold_left scanLine lines b) = source b.
Proof.
  revert b. induction lines as [|line lines IH]; intros b; simpl.
  - auto.
  - destruct (IH (scanLine b line)) as (A & B & C).
    destruct (scanLine_fixed_fields b line) as (A' & B' & C').
    rewrite A, B, C. auto.
Qed.

(** X8. Whatever the reply, the line scan returns confidence 50, a null
    description and source 'gemini_ai'; and [parseGeminiResponse] returns
    source 'gemini_ai' on every path. *)
Theorem fallbackTextParsing_fixed_fields (responseText : string) :
  confidence (fallbackTextParsing responseText) = JNum (ofZ 50)
  /\ description (fallbackTextParsing responseText) = JNull
  /\ source (fallbackTextParsing responseText) = JStr "gemini_ai"
  /\ source (parseGeminiResponse responseText) = JStr "gemini_ai".
Proof.
  destruct (fold_scanLine_fixed_fields (split newline responseText) placeholder)
    as (A & B & C).
  unfold fallbackTextParsing. repeat split; try assumption.
  unfold parseGeminiResponse, tryParse.
  destruct (jsonMatch responseText) as [span|]; [|exact C].
  destruct (JSON.parse span) as [parsed|]; [|exact C].
  destruct parsed; simpl; try reflexivity; exact C.
Qed.



Lemma split_without_sep (sep : ascii) (s : string) :
  includes s (String sep EmptyString) = false -> split sep s = [s].
Proof.
  induction s as [|c s IH]; intros H.
  - reflexivity.
  - rewrite GeminiFacts.includes_char_cons in H.
    apply orb_false_iff in H. destruct H as [Hc Hs].
    simpl. rewrite Hc, (IH Hs). reflexivity.
Qed.

Lemma split_at_sep (sep : ascii) (s rest : string) :
  includes s (String sep EmptyString) = false ->
  split sep (s ++ String sep rest) = s :: split sep rest.
Proof.
  induction s as [|c s IH]; intros H.
  - simpl. rewrite Ascii.eqb_refl. reflexivity.
  - rewrite GeminiFacts.includes_char_cons in H.
    apply orb_false_iff in H. destruct H as [Hc Hs].
    simpl. rewrite Hc, (IH Hs). reflexivity.
Qed.

(** X10. On a one-line reply "Title:" followed by a value, the line scan
    returns the placeholder with the title set to the trimmed value, or
    left null when the value is blank; when the value is followed by
    another colon, what comes after that colon is dropped. *)
Theorem fallbackTextParsing_title_line (value rest : string) :
  includes value ":" = false ->
  includes value (String newline "") = false ->
  includes rest (String newline "") = false ->
  let expected :=
    {| title := if trim value =? "" then JNull else JStr (trim value);
       author := JNull; isbn := JNull; publisher := JNull; year := JNull;
       description := JNull; category := JNull;
       confidence := JNum (ofZ 50); source := JStr "gemini_ai" |} in
  fallbackTextParsing ("Title:" ++ value) = expected
  /\ fallbackTextParsing ("Title:" ++ value ++ ":" ++ rest) = expected.
Proof.
  intros Hc Hn Hr expected.
  assert (Hfield1 : fieldAfterColon ("Title:" ++ value)
                    = if trim value =? "" then JNull else JStr (trim value)).
  { unfold fieldAfterColon.
    change ("Title:" ++ value) with ("Title" ++ String ":" value).
    rewrite split_at_sep by reflexivity.
    rewrite (split_without_sep ":" value Hc). reflexivity. }
  assert (Hfield2 : fieldAfterColon ("Title:" ++ value ++ ":" ++ rest)
                    = if trim value =? "" then JNull else JStr (trim value)).
  { unfold fieldAfterColon.
    change ("Title:" ++ value ++ ":" ++ rest)
      with ("Title" ++ String ":" (value ++ String ":" rest)).
    rewrite split_at_sep by reflexivity.
    rewrite (split_at_sep ":" value rest Hc). reflexivity. }
  assert (Hline : forall line tail,
             line = "Title:" ++ tail ->
             scanLine placeholder line
             = mkBookInfo (fieldAfterColon line) JNull JNull JNull JNull JNull
                          JNull (JNum (ofZ 50)) (JStr "gemini_ai")).
  { intros line tail ->. unfold scanLine. cbv zeta.
    change (toLowerCase ("Title:" ++ tail)) with ("title:" ++ toLowerCase tail).
    assert (E : includes ("title:" ++ toLowerCase tail) "title:" = true)
      by (simpl; destruct (toLowerCase tail); reflexivity).
    rewrite E. reflexivity. }
  unfold fallbackTextParsing. split.
  - rewrite split_without_sep.
    + cbn [fold_left]. rewrite (Hline _ value eq_refl), Hfield1. reflexivity.
    + rewrite GeminiFacts.includes_char_app, Hn. reflexivity.
  - rewrite split_without_sep.
    + cbn [fold_left].
      rewrite (Hline _ (value ++ ":" ++ rest) eq_refl), Hfield2.
      reflexivity.
    + rewrite !GeminiFacts.includes_char_app, Hn.
      change (":" ++ rest) with (String ":" rest).
      rewrite GeminiFacts.includes_char_cons, Hr. reflexivity.
Qed.

Lemma fallbackTextParsing_title_line_witness :
  fallbackTextParsing ("Title:" ++ " Dune ")
  = {| title := JStr "Dune";
       author := JNull; isbn := JNull; publisher := JNull; year := JNull;
       description := JNull; category := JNull;
       confidence := JNum (ofZ 50); source := JStr "gemini_ai" |}
  /\ fallbackTextParsing ("Title:" ++ " Dune " ++ ":" ++ " Part Two")
     = {| title := JStr "Dune";
          author := JNull; isbn := JNull; publisher := JNull; year := JNull;
          description := JNull; category := JNull;
          confidence := JNum (ofZ 50); source := JStr "gemini_ai" |}.
Proof.
  apply (fallbackTextParsing_title_line " Dune " " Part Two"); reflexivity.
Defined.

End FallbackFacts.

(* ================================================================= *)
(** ** More on [applyFilters] *)

Module FilterMore.
Import JS.
Import Completion.
Import Library.
Import Samples.

(** X11. The six filters act as a conjunction: an item passes a
    configuration exactly when it passes each of the six configurations
    that keep one of its values and set the other five to 'all'. *)
Theorem passesFilters_conjunction (f : Filters.t) (item : LibraryItem) :
  passesFilters f item
  = passesFilters (Filters.mk (Filters.type f) "all" "all" "all" "all" "all") item
    && passesFilters (Filters.mk "all" (Filters.status f) "all" "all" "all" "all") item
    && passesFilters (Filters.mk "all" "all" (Filters.rating f) "all" "all" "all") item
    && passesFilters (Filters.mk "all" "all" "all" (Filters.difficulty f) "all" "all") item
    && passesFilters (Filters.mk "all" "all" "all" "all" (Filters.language f) "all") item
    && passesFilters (Filters.mk "all" "all" "all" "all" "all" (Filters.category f)) item.
Proof.
  unfold passesFilters. cbn [Filters.type Filters.status Filters.rating
    Filters.difficulty Filters.language Filters.category].
  change ("all" =? "all") with true. cbn [negb andb].
  destruct (negb (Filters.type f =? "all")
            && strictNeqStr (Item.type item) (Filters.type f));
  destruct (negb (Filters.status f =? "all")
            && strictNeqStr (Item.status item) (Filters.status f));
  destruct (negb (Filters.rating f =? "all")
            && ratingRejects item (Filters.rating f));
  destruct (negb (Filters.difficulty f =? "all")
            && difficultyRejects item (Filters.difficulty f));
  destruct (negb (Filters.language f =? "all")
            && strictNeqStr (Item.language item) (Filters.language f));
  destruct (negb (Filters.category f =? "all")
            && strictNeqStr (Item.category item) (Filters.category f));
  reflexivity.
Qed.

Lemma strictNeqStr_false (field : jsval) (value : string) :
  strictNeqStr field value = false <-> field = JStr value.
Proof.
  unfold strictNeqStr. rewrite negb_false_iff.
  apply IsbnFacts.strictEq_JStr.
Qed.

(** X12. The type, status, language and category filters are exact,
    case-sensitive matches: with one of them at a value other than 'all'
    and the rest at 'all', an item passes exactly when that field is the
    string selected; a missing field never passes. *)
Theorem exact_match_filters (value : string) (item : LibraryItem) :
  value <> "all" ->
  (passesFilters (Filters.mk value "all" "all" "all" "all" "all") item = true
   <-> Item.type item = JStr value)
  /\ (passesFilters (Filters.mk "all" value "all" "all" "all" "all") item = true
      <-> Item.status item = JStr value)
  /\ (passesFilters (Filters.mk "all" "all" "all" "all" value "all") item = true
      <-> Item.language item = JStr value)
  /\ (passesFilters (Filters.mk "all" "all" "all" "all" "all" value) item = true
      <-> Item.category item = JStr value).
Proof.
  intros Hv. apply String.eqb_neq in Hv.
  unfold passesFilters. cbn [Filters.type Filters.status Filters.rating
    Filters.difficulty Filters.language Filters.category].
  change ("all" =? "all") with true. rewrite Hv. cbn [negb andb].
  repeat split; intros H.
  - apply strictNeqStr_false.
    destruct (strictNeqStr (Item.type item) value); [discriminate | reflexivity].
  - apply strictNeqStr_false in H. rewrite H. reflexivity.
  - apply strictNeqStr_false.
    destruct (strictNeqStr (Item.status item) value); [discriminate | reflexivity].
  - apply strictNeqStr_false in H. rewrite H. reflexivity.
  - apply strictNeqStr_false.
    destruct (strictNeqStr (Item.language item) value); [discriminate | reflexivity].
  - apply strictNeqStr_false in H. rewrite H. reflexivity.
  - apply strictNeqStr_false.
    destruct (strictNeqStr (Item.category item) value); [discriminate | reflexivity].
  - apply strictNeqStr_false in H. rewrite H. reflexivity.
Qed.

Lemma exact_match_filters_witness :
  (passesFilters (Filters.mk "book" "all" "all" "all" "all" "all") dune = true
   <-> Item.type dune = JStr "book")
  /\ (passesFilters (Filters.mk "all" "book" "all" "all" "all" "all") dune = true
      <-> Item.status dune = JStr "book")
  /\ (passesFilters (Filters.mk "all" "all" "all" "all" "book" "all") dune = true
      <-> Item.language dune = JStr "book")
  /\ (passesFilters (Filters.mk "all" "all" "all" "all" "all" "book") dune = true
      <-> Item.category dune = JStr "book").
Proof.
  apply (exact_match_filters "book" dune). discriminate.
Defined.

Lemma filter_idempotent {A : Type} (f : A -> bool) (l : list A) :
  filter f (filter f l) = filter f l.
Proof.
  induction l as [|x l IH]; simpl; [reflexivity|].
  destruct (f x) eqn:E; simpl; [rewrite E, IH|]; auto.
Qed.

(** X13. Filtering is idempotent: filtering the filtered list again with
    the same configuration gives the same list; and applying the filters
    twice in a row renders the same list both times. *)
Theorem filtering_is_idempotent (d : Display) (p : Page) :
  filteredItems (setLibraryItems (filteredItems p) p) = filteredItems p
  /\ lastRendered (fst (applyFilters d (fst (applyFilters d p))))
     = lastRendered (fst (applyFilters d p)).
Proof.
  split.
  - unfold filteredItems. simpl. apply filter_idempotent.
  - destruct (FilterFacts.applyFilters_renders d (fst (applyFilters d p)))
      as [H1 _].
    destruct (FilterFacts.applyFilters_renders d p) as [H2 H3].
    rewrite H1, H2. unfold filteredItems. rewrite H3.
    f_equal. f_equal. unfold applyFilters.
    destruct (savedView p =? "masonry");
      [destruct (updateMasonryDisplay d _) | destruct (updatePlanetDisplay d _)];
      try destruct (Nat.ltb _ _); reflexivity.
Qed.






End FilterMore.

(* ================================================================= *)
(** ** More on the two searches *)

Module SearchMore.
Import JS.
Import Completion.
Import Library.
Import Samples.

Lemma lowerChar_idempotent (c : ascii) : lowerChar (lowerChar c) = lowerChar c.
Proof. destruct c as [[] [] [] [] [] [] [] []]; reflexivity. Qed.

Lemma toLowerCase_idempotent (s : string) :
  toLowerCase (toLowerCase s) = toLowerCase s.
Proof.
  induction s as [|c s IH]; simpl; [reflexivity|].
  rewrite lowerChar_idempotent, IH. reflexivity.
Qed.

(** X15. The library search ignores the letter case of what is typed:
    an input and its lower-cased form give the same outcome. *)
Theorem searchInputHandler_ignores_case (value : string) (p : Page) :
  searchInputHandler (toLowerCase value) p = searchInputHandler value p.
Proof.
  unfold searchInputHandler. rewrite toLowerCase_idempotent. reflexivity.
Qed.

Lemma filterM_pure {A : Type} (pred : A -> Completion.t bool) (f : A -> bool)
      (xs : list A) :
  Forall (fun x => pred x = Normal (f x)) xs ->
  filterM pred xs = Normal (filter f xs).
Proof.
  induction 1 as [|x xs Hx _ IH]; simpl.
  - reflexivity.
  - rewrite Hx, IH. simpl. reflexivity.
Qed.

Lemma searchCallback_pure (searchTerm : string) (item : LibraryItem) :
  textFieldsAreStrings item ->
  searchCallback searchTerm item
  = Normal (existsb (fun field =>
                       match field with
                       | JStr s => includes (toLowerCase s) searchTerm
                       | _ => false
                       end)
                    [Item.title item; Item.author item; Item.category item;
                     Item.type item]).
Proof.
  intros (t & a & c & y & Ht & Ha & Hc & Hy).
  unfold searchCallback. rewrite Ht, Ha, Hc, Hy. simpl.
  destruct (includes (toLowerCase t) searchTerm); simpl; [reflexivity|].
  destruct (includes (toLowerCase a) searchTerm); simpl; [reflexivity|].
  destruct (includes (toLowerCase c) searchTerm); simpl; [reflexivity|].
  rewrite orb_false_r. reflexivity.
Qed.

(** X16. On a collection whose items all have string title, author,
    category and type, a non-empty query lists exactly the items one of
    whose four fields, lower-cased, contains the query, in collection
    order, or the "No items found" message when there is none; the
    collection itself is not touched. *)
Theorem performSearch_lists_matches (searchTerm : string) (p : Page) :
  searchTerm <> "" ->
  Forall textFieldsAreStrings (libraryItems p) ->
  performSearch searchTerm p
  = Normal (displaySearchResults
              (filter (fun item =>
                         existsb (fun field =>
                                    match field with
                                    | JStr s => includes (toLowerCase s) searchTerm
                                    | _ => false
                                    end)
                                 [Item.title item; Item.author item;
                                  Item.category item; Item.type item])
                      (libraryItems p)) p)
  /\ forall p', performSearch searchTerm p = Normal p' ->
                libraryItems p' = libraryItems p.
Proof.
  intros Hne Hall. apply String.eqb_neq in Hne.
  assert (E : performSearch searchTerm p
              = Normal (displaySearchResults
                          (filter (fun item =>
                               existsb (fun field =>
                                    match field with
                                    | JStr s => includes (toLowerCase s) searchTerm
                                    | _ => false
                                    end)
                                 [Item.title item; Item.author item;
                                  Item.category item; Item.type item])
                             (libraryItems p)) p)).
  { unfold performSearch. rewrite Hne.
    match goal with
    | |- context [filter ?f (libraryItems p)] =>
        rewrite (filterM_pure (searchCallback searchTerm) f (libraryItems p))
    end.
    - reflexivity.
    - eapply Forall_impl; [|exact Hall].
      intros item Hi. apply searchCallback_pure. exact Hi. }
  split; [exact E|].
  intros p' Hp'. rewrite E in Hp'. injection Hp' as <-.
  unfold displaySearchResults. destruct (filter _ _); reflexivity.
Qed.

Lemma performSearch_lists_matches_witness :
  performSearch "herbert" (page [dune; zeroRated] allFilters)
  = Normal (setSearchResults (ResultItems [dune])
                             (page [dune; zeroRated] allFilters)).
Proof.
  destruct (performSearch_lists_matches "herbert"
              (page [dune; zeroRated] allFilters)) as [H _].
  - discriminate.
  - repeat constructor; unfold textFieldsAreStrings; simpl;
      repeat eexists.
  - exact H.
Defined.

Lemma prefix_lower (term s : string) :
  String.prefix term (toLowerCase s) = true -> toLowerCase term = term.
Proof.
  revert s. induction term as [|a term IH]; intros s H.
  - reflexivity.
  - destruct s as [|b s]; simpl in H; [discriminate|].
    destruct (ascii_dec a (lowerChar b)) as [->|]; [|discriminate].
    simpl. rewrite lowerChar_idempotent, (IH s H). reflexivity.
Qed.

Lemma includes_lower (s term : string) :
  includes (toLowerCase s) term = true -> toLowerCase term = term.
Proof.
  induction s as [|b s IH]; intros H.
  - simpl in H. rewrite orb_false_r in H.
    exact (prefix_lower term EmptyString H).
  - change (toLowerCase (String b s))
      with (String (lowerChar b) (toLowerCase s)) in H.
    cbn [includes] in H. apply orb_true_iff in H. destruct H as [H|H].
    + exact (prefix_lower term (String b s) H).
    + exact (IH H).
Qed.

Lemma filter_none {A : Type} (l : list A) : filter (fun _ => false) l = [].
Proof. induction l as [|x l IH]; simpl; auto. Qed.

(** Against a query that is not in lower case no field matches: the test
    on a field gives [false], or throws where the field is not a string. *)
Lemma lowerIncludes_uppercase (field : jsval) (searchTerm : string) :
  toLowerCase searchTerm <> searchTerm ->
  lowerIncludes field searchTerm = Normal false
  \/ lowerIncludes field searchTerm = Throw TypeError.
Proof.
  intros Hup. destruct field; simpl; auto.
  destruct (includes (toLowerCase s) searchTerm) eqn:E; [|auto].
  exfalso. apply Hup. exact (includes_lower _ _ E).
Qed.

Lemma searchCallback_uppercase (searchTerm : string) (item : LibraryItem) :
  toLowerCase searchTerm <> searchTerm ->
  searchCallback searchTerm item = Normal false
  \/ searchCallback searchTerm item = Throw TypeError.
Proof.
  intros Hup. unfold searchCallback.
  destruct (lowerIncludes_uppercase (Item.title item) searchTerm Hup) as [-> | ->];
    [|right; reflexivity].
  destruct (lowerIncludes_uppercase (Item.author item) searchTerm Hup) as [-> | ->];
    [|right; reflexivity].
  destruct (lowerIncludes_uppercase (Item.category item) searchTerm Hup) as [-> | ->];
    [|right; reflexivity].
  destruct (lowerIncludes_uppercase (Item.type item) searchTerm Hup) as [-> | ->];
    [left | right]; reflexivity.
Qed.

Lemma filterM_uppercase (searchTerm : string) (items : list LibraryItem) :
  toLowerCase searchTerm <> searchTerm ->
  filterM (searchCallback searchTerm) items = Normal []
  \/ filterM (searchCallback searchTerm) items = Throw TypeError.
Proof.
  intros Hup. induction items as [|item items IH]; simpl; [auto|].
  destruct (searchCallback_uppercase searchTerm item Hup) as [-> | ->];
    [|right; reflexivity].
  destruct IH as [-> | ->]; [left | right]; reflexivity.
Qed.

(** X17. [performSearch] does not lower-case its argument: called with a
    query that contains an upper-case letter it never lists an item,
    whatever the collection holds.  It shows "No items found", or it throws
    the TypeError of a text field that is not a string; on a collection
    whose text fields are all strings it shows "No items found".  The input
    listeners lower-case the query first. *)
Theorem performSearch_uppercase_finds_nothing (searchTerm : string) (p : Page) :
  toLowerCase searchTerm <> searchTerm ->
  (performSearch searchTerm p = Normal (setSearchResults NoItemsFound p)
   \/ performSearch searchTerm p = Throw TypeError)
  /\ (Forall textFieldsAreStrings (libraryItems p) ->
      performSearch searchTerm p = Normal (setSearchResults NoItemsFound p)).
Proof.
  intros Hup.
  assert (Hne : (searchTerm =? "") = false).
  { apply String.eqb_neq. intros ->. apply Hup. reflexivity. }
  assert (Hcases : performSearch searchTerm p
                   = Normal (setSearchResults NoItemsFound p)
                   \/ performSearch searchTerm p = Throw TypeError).
  { unfold performSearch. rewrite Hne.
    destruct (filterM_uppercase searchTerm (libraryItems p) Hup) as [-> | ->];
      [left | right]; reflexivity. }
  split; [exact Hcases|].
  intros Hall. destruct Hcases as [H | H]; [exact H|].
  exfalso.
  destruct (performSearch_lists_matches searchTerm p) as [E _].
  - intros ->. discriminate Hne.
  - exact Hall.
  - rewrite E in H. discriminate H.
Qed.

Lemma performSearch_uppercase_finds_nothing_witness :
  performSearch "Dune" (page [dune; zeroRated] allFilters)
  = Normal (setSearchResults NoItemsFound (page [dune; zeroRated] allFilters))
  /\ performSearch "Dune" (page [dune; noAuthor] allFilters) = Throw TypeError.
Proof.
  split.
  - apply (performSearch_uppercase_finds_nothing "Dune"
             (page [dune; zeroRated] allFilters)).
    + discriminate.
    + repeat constructor; unfold textFieldsAreStrings; simpl; repeat eexists.
  - destruct (performSearch_uppercase_finds_nothing "Dune"
                (page [dune; noAuthor] allFilters)) as [[H | H] _].
    + discriminate.
    + vm_compute in H. discriminate H.
    + exact H.
Defined.

End SearchMore.

(* ================================================================= *)
(** ** The overlay search on a non-empty query *)

Module OverlayFacts.
Import JS.
Import Completion.
Import Library.
Import Terms.

Lemma hasClass_add (c : string) (n : MasonryNode) :
  hasClass c (classList_add c n) = true.
Proof.
  unfold hasClass, classList_add.
  destruct (existsb (fun x => x =? c) (classList n)) eqn:E; [exact E|].
  simpl. rewrite existsb_app. simpl. rewrite String.eqb_refl.
  rewrite orb_true_r. reflexivity.
Qed.

Lemma optLowerIncludes_ready (field : jsval) (searchTerm : string) :
  absentOrString field ->
  optLowerIncludes field searchTerm = Normal (lowerContains field searchTerm).
Proof. intros [-> | [-> | [s ->]]]; reflexivity. Qed.

Lemma overlayMatch_ready (searchTerm : string) (item : LibraryItem) :
  overlayReady item ->
  overlayMatch searchTerm item = Normal (overlayMatches searchTerm item).
Proof.
  intros (Ht & Ha & Hc & Hy). unfold overlayMatch, overlayMatches.
  rewrite (optLowerIncludes_ready _ _ Ht), (optLowerIncludes_ready _ _ Ha),
    (optLowerIncludes_ready _ _ Hc), (optLowerIncludes_ready _ _ Hy).
  reflexivity.
Qed.

Lemma markMatches_ready (searchTerm : string) (items : list LibraryItem) :
  Forall overlayReady items ->
  forall nodes index,
  exists nodes',
    markMatches searchTerm items index nodes = (nodes', None)
    /\ List.length nodes' = List.length nodes
    /\ forall i node',
         nth_error nodes' i = Some node' ->
         match nth_error items (index + i) with
         | Some item =>
             hasClass "search-match" node' = overlayMatches searchTerm item
         | None => nth_error nodes i = Some node'
         end.
Proof.
  intros Hall. induction nodes as [|n rest IH]; intros index.
  - exists []. simpl. repeat split. intros [|i] node' H; discriminate H.
  - destruct (IH (S index)) as (rest' & Hm & Hl & Hn).
    simpl. destruct (nth_error items index) as [item|] eqn:Hi.
    + assert (Hr : overlayReady item).
      { rewrite Forall_forall in Hall. apply Hall.
        exact (nth_error_In _ _ Hi). }
      rewrite (overlayMatch_ready searchTerm item Hr), Hm.
      eexists. split; [reflexivity|]. split; [simpl; lia|].
      intros [|i] node' H.
      * rewrite Nat.add_0_r, Hi. simpl in H. injection H as <-.
        destruct (overlayMatches searchTerm item);
          [apply hasClass_add | apply SearchFacts.hasClass_remove].
      * simpl in H. specialize (Hn i node' H).
        replace (index + S i)%nat with (S index + i)%nat by lia.
        destruct (nth_error items (S index + i)); [exact Hn|].
        simpl. exact Hn.
    + rewrite Hm. eexists. split; [reflexivity|]. split; [simpl; lia|].
      intros [|i] node' H.
      * rewrite Nat.add_0_r, Hi. exact H.
      * simpl in H. specialize (Hn i node' H).
        replace (index + S i)%nat with (S index + i)%nat by lia.
        destruct (nth_error items (S index + i)); [exact Hn|].
        simpl. exact Hn.
Qed.

(** X18. On a query that is not blank, and items whose text fields are
    missing or strings, the overlay search returns normally and leaves the
    node at position i with the [search-match] class exactly when item i
    matches the lower-cased, trimmed query in its title, author, category,
    type, publishingYear or year; nodes beyond the end of the collection
    keep their classes, and the collection is not touched. *)
Theorem performOverlaySearch_marks_matches (query : string) (p : Page) :
  trim query <> "" ->
  Forall overlayReady (libraryItems p) ->
  snd (performOverlaySearch query p) = None
  /\ List.length (masonryItems (fst (performOverlaySearch query p)))
     = List.length (masonryItems p)
  /\ libraryItems (fst (performOverlaySearch query p)) = libraryItems p
  /\ forall i node',
       nth_error (masonryItems (fst (performOverlaySearch query p))) i
       = Some node' ->
       match nth_error (libraryItems p) i with
       | Some item =>
           hasClass "search-match" node'
           = overlayMatches (trim (toLowerCase query)) item
       | None => nth_error (masonryItems p) i = Some node'
       end.
Proof.
  intros Hq Hall.
  assert (Hq' : (trim query =? "") = false) by (apply String.eqb_neq; exact Hq).
  assert (Hq0 : (query =? "") = false).
  { apply String.eqb_neq. intros ->. apply Hq. reflexivity. }
  unfold performOverlaySearch. rewrite Hq0, Hq'. simpl orb. cbv iota.
  destruct (markMatches_ready (trim (toLowerCase query)) (libraryItems p) Hall
              (masonryItems p) 0) as (nodes' & Hm & Hl & Hn).
  rewrite Hm. simpl. repeat split; auto.
Qed.

Lemma performOverlaySearch_marks_matches_witness :
  let p := Samples.page [Samples.dune; Samples.noAuthor] allFilters in
  snd (performOverlaySearch " HERBERT" p) = None
  /\ List.length (masonryItems (fst (performOverlaySearch " HERBERT" p)))
     = List.length (masonryItems p)
  /\ libraryItems (fst (performOverlaySearch " HERBERT" p)) = libraryItems p
  /\ forall i node',
       nth_error (masonryItems (fst (performOverlaySearch " HERBERT" p))) i
       = Some node' ->
       match nth_error (libraryItems p) i with
       | Some item =>
           hasClass "search-match" node'
           = overlayMatches (trim (toLowerCase " HERBERT")) item
       | None => nth_error (masonryItems p) i = Some node'
       end.
Proof.
  apply (performOverlaySearch_marks_matches " HERBERT"
           (Samples.page [Samples.dune; Samples.noAuthor] allFilters)).
  - discriminate.
  - repeat (constructor; [unfold overlayReady, absentOrString; simpl;
                          repeat split;
                          first [ left; reflexivity
                                | right; left; reflexivity
                                | right; right; eexists; reflexivity ]|]).
    constructor.
Defined.

End OverlayFacts.

(* ================================================================= *)
(** ** Updating and adding items *)

Module StoreFacts.
Import JS.
Import Completion.
Import Library.
Import LibraryStore.
Import Samples.
Import Terms.

Lemma assignAt_middle {A : Type} (before : list A) (old x : A) (after : list A) :
  assignAt (List.length before) x (before ++ old :: after)%list
  = (before ++ x :: after)%list.
Proof.
  induction before as [|y before IH]; simpl; [reflexivity|].
  rewrite IH. reflexivity.
Qed.

(** X19. [updateLibraryItem] on an id that is in the collection replaces
    the first item with that id, in place: the items before and after it
    and their order stay. *)
Theorem updateLibraryItem_replaces_in_place
        (updatedItem : LibraryItem) (p : Page) :
  (exists item, In item (libraryItems p)
                /\ strictEq (Item.id item) (Item.id updatedItem) = true) ->
  exists (before : list LibraryItem) old after,
    libraryItems p = (before ++ old :: after)%list
    /\ strictEq (Item.id old) (Item.id updatedItem) = true
    /\ Forall (otherId (Item.id updatedItem)) before
    /\ libraryItems (updateLibraryItem updatedItem p)
       = (before ++ updatedItem :: after)%list.
Proof.
  intros [item [Hin Hid]]. unfold updateLibraryItem.
  destruct (findIndex (Item.id updatedItem) (libraryItems p)) as [i|] eqn:Hi.
  - destruct (DeleteFacts.findIndex_Some _ _ _ Hi)
      as (b & d & a & Hitems & Hlen & Hd & Hb).
    exists b, d, a. repeat split; auto.
    unfold saveLibraryData.
    assert (E : libraryItems
                  (emit UpdateLibraryDisplay
                     (if authenticated
                           (setLibraryItems
                              (assignAt i updatedItem (libraryItems p)) p)
                      then setLibraryItems
                             (assignAt i updatedItem (libraryItems p)) p
                      else setDigitalLibrary
                             (libraryItems
                                (setLibraryItems
                                   (assignAt i updatedItem (libraryItems p)) p))
                             (setLibraryItems
                                (assignAt i updatedItem (libraryItems p)) p)))
                = assignAt i updatedItem (libraryItems p))
      by (destruct (authenticated _); reflexivity).
    rewrite E, Hitems, <- Hlen. apply assignAt_middle.
  - apply DeleteFacts.findIndex_None in Hi.
    rewrite Forall_forall in Hi. specialize (Hi item Hin).
    unfold otherId in Hi. congruence.
Qed.

Lemma updateLibraryItem_replaces_in_place_witness :
  exists (before : list LibraryItem) old after,
    libraryItems (page [dune; zeroRated; unrated] allFilters)
    = (before ++ old :: after)%list
    /\ strictEq (Item.id old) (Item.id (setId (JNum (ofZ 2)) dune)) = true
    /\ Forall (otherId (Item.id (setId (JNum (ofZ 2)) dune))) before
    /\ libraryItems (updateLibraryItem (setId (JNum (ofZ 2)) dune)
                       (page [dune; zeroRated; unrated] allFilters))
       = (before ++ setId (JNum (ofZ 2)) dune :: after)%list.
Proof.
  apply (updateLibraryItem_replaces_in_place (setId (JNum (ofZ 2)) dune)
           (page [dune; zeroRated; unrated] allFilters)).
  exists zeroRated. split; [simpl; auto | reflexivity].
Defined.

(** X20. [updateLibraryItem] on an id that no item has changes nothing but
    for an error notification: nothing is added, and local storage is not
    written. *)
Theorem updateLibraryItem_unknown_id (updatedItem : LibraryItem) (p : Page) :
  Forall (otherId (Item.id updatedItem)) (libraryItems p) ->
  updateLibraryItem updatedItem p
  = emit (ShowNotification "Error: Item not found for update" "error") p.
Proof.
  intros H. apply DeleteFacts.findIndex_None in H.
  unfold updateLibraryItem. rewrite H. reflexivity.
Qed.

Lemma updateLibraryItem_unknown_id_witness :
  updateLibraryItem (setId (JStr "2") dune) (page [dune; zeroRated] allFilters)
  = emit (ShowNotification "Error: Item not found for update" "error")
         (page [dune; zeroRated] allFilters).
Proof.
  apply (updateLibraryItem_unknown_id (setId (JStr "2") dune)
           (page [dune; zeroRated] allFilters)).
  repeat constructor.
Defined.

(** X21. Without a session, adding an item and then deleting its id gives
    back the collection as it was, in memory and in local storage,
    provided no item had that id before. *)
Theorem add_then_delete_restores
        (typeErrorMessage : string) (inserted : InsertOutcome)
        (remote : RemoteOutcome) (item : LibraryItem) (p : Page) :
  currentUser p = None ->
  Forall (otherId (Item.id item)) (libraryItems p) ->
  strictEq (Item.id item) (Item.id item) = true ->
  libraryItems (deleteLibraryItem remote (Item.id item)
                  (addLibraryItem typeErrorMessage inserted item p))
  = libraryItems p
  /\ digitalLibrary (deleteLibraryItem remote (Item.id item)
                       (addLibraryItem typeErrorMessage inserted item p))
     = Some (libraryItems p).
Proof.
  intros Hu Hfresh Hid.
  assert (Hadd : addLibraryItem typeErrorMessage inserted item p
                 = emit UpdateLibraryDisplay
                     (setDigitalLibrary (libraryItems p ++ [item])
                        (setLibraryItems (libraryItems p ++ [item]) p))).
  { unfold addLibraryItem, authenticated. rewrite Hu. reflexivity. }
  rewrite Hadd.
  set (q := emit UpdateLibraryDisplay
              (setDigitalLibrary (libraryItems p ++ [item])
                 (setLibraryItems (libraryItems p ++ [item]) p))).
  assert (Hi : findIndex (Item.id item) (libraryItems q)
               = Some (List.length (libraryItems p))).
  { subst q. simpl. apply DeleteFacts.findIndex_middle; assumption. }
  assert (Hq : currentUser q = None) by (subst q; simpl; exact Hu).
  assert (Hs : splice1 (List.length (libraryItems p)) (libraryItems q)
               = libraryItems p).
  { subst q. simpl.
    rewrite (DeleteFacts.splice1_middle (libraryItems p) item []).
    apply app_nil_r. }
  split.
  - rewrite (DeleteFacts.deleteLibraryItem_success remote _ q _ Hi)
      by (left; exact Hq).
    exact Hs.
  - unfold deleteLibraryItem. rewrite Hi, Hq.
    cbn -[splice1]. rewrite Hu. cbn -[splice1].
    change (libraryItems p ++ [item])%list with (libraryItems q).
    rewrite Hs. reflexivity.
Qed.

Lemma add_then_delete_restores_witness :
  libraryItems (deleteLibraryItem RemoteOk (Item.id unrated)
                  (addLibraryItem "" (InsertOk None) unrated
                     (page [dune; zeroRated] allFilters)))
  = [dune; zeroRated]
  /\ digitalLibrary (deleteLibraryItem RemoteOk (Item.id unrated)
                       (addLibraryItem "" (InsertOk None) unrated
                          (page [dune; zeroRated] allFilters)))
     = Some [dune; zeroRated].
Proof.
  apply (add_then_delete_restores "" (InsertOk None) RemoteOk unrated
           (page [dune; zeroRated] allFilters)).
  - reflexivity.
  - repeat constructor.
  - reflexivity.
Defined.

(** X22. With a session, an item is added to the collection only after the
    insert succeeded: a failed insert leaves the collection as it was; a
    successful one appends the item, carrying the id of the inserted row,
    after the items already there. *)
Theorem addLibraryItem_remote
        (typeErrorMessage : string) (item : LibraryItem) (p : Page) :
  authenticated p = true ->
  (forall message,
      libraryItems (addLibraryItem typeErrorMessage (InsertError message) item p)
      = libraryItems p)
  /\ (forall newId,
        stringOrFalsy (Item.type item) ->
        libraryItems (addLibraryItem typeErrorMessage (InsertOk (Some newId))
                        item p)
        = (libraryItems p ++ [setId newId item])%list).
Proof.
  intros Ha. unfold addLibraryItem. rewrite Ha. split.
  - intros message.
    destruct (or_else (Item.type item) (JStr "book")); reflexivity.
  - intros newId [Hf | [s Hs]].
    + unfold or_else. rewrite Hf. reflexivity.
    + rewrite Hs. unfold or_else.
      destruct (truthy (JStr s)); reflexivity.
Qed.

Lemma addLibraryItem_remote_witness :
  let p := mkPage [dune] allFilters
                  (Some {| user_id := "u1"; email := "reader@example.org" |})
                  true None None EnterSearchTerm [] [] in
  (forall message,
      libraryItems (addLibraryItem "" (InsertError message) unrated p) = [dune])
  /\ (forall newId,
        stringOrFalsy (Item.type unrated) ->
        libraryItems (addLibraryItem "" (InsertOk (Some newId)) unrated p)
        = ([dune] ++ [setId newId unrated])%list).
Proof.
  apply (addLibraryItem_remote "" unrated
           (mkPage [dune] allFilters
                   (Some {| user_id := "u1"; email := "reader@example.org" |})
                   true None None EnterSearchTerm [] [])).
  reflexivity.
Defined.

End StoreFacts.

(* ================================================================= *)
(** ** Categories, the add-modal search and loaded rows *)

Module CollectionFacts.
Import JS.
Import Completion.
Import Library.
Import LibraryStore.
Import Samples.
Import Terms.

Lemma setAdd_In (x c : string) (s : list string) :
  In c (setAdd x s) <-> In c s \/ c = x.
Proof.
  unfold setAdd. destruct (existsb (String.eqb x) s) eqn:E.
  - split; [auto|]. intros [H | ->]; [exact H|].
    apply existsb_exists in E. destruct E as [y [Hy Heq]].
    apply String.eqb_eq in Heq. subst. exact Hy.
  - rewrite in_app_iff. simpl. split.
    + intros [H | [H | []]]; auto.
    + intros [H | H]; auto.
Qed.

Lemma setAdd_NoDup (x : string) (s : list string) :
  NoDup s -> NoDup (setAdd x s).
Proof.
  intros Hs. unfold setAdd. destruct (existsb (String.eqb x) s) eqn:E.
  - exact Hs.
  - assert (Hx : ~ In x s).
    { intros Hin.
      assert (E' : existsb (String.eqb x) s = true).
      { apply existsb_exists. exists x. split; [exact Hin|].
        apply String.eqb_refl. }
      congruence. }
    clear E. induction Hs as [|y s Hy Hs IH]; simpl.
    + constructor; [simpl; tauto | constructor].
    + constructor.
      * rewrite in_app_iff. simpl. intros [H | [H | []]].
        -- contradiction.
        -- apply Hx. left. symmetry. exact H.
      * apply IH. intros H. apply Hx. right. exact H.
Qed.

Lemma categoryStep_falsy (acc : list string) (item : LibraryItem) :
  truthy (Item.category item) = false ->
  categoryStep (Normal acc) item = Normal acc
  /\ forall c, Item.category item = JStr c -> trim c = "".
Proof.
  unfold categoryStep. simpl.
  destruct (Item.category item) as [| |b|n|s|l|kv]; intros Hf.
  - split; [reflexivity | discriminate].
  - split; [reflexivity | discriminate].
  - simpl in Hf. subst b. split; [reflexivity | discriminate].
  - destruct n as [|neg|q]; simpl in Hf |- *; try discriminate Hf;
      try rewrite Hf; (split; [reflexivity | discriminate]).
  - simpl in Hf. rewrite Hf. simpl. split; [reflexivity|].
    intros c H. injection H as <-.
    apply negb_false_iff, String.eqb_eq in Hf. subst s. reflexivity.
  - discriminate Hf.
  - discriminate Hf.
Qed.

Lemma collectCategories_from (items : list LibraryItem) :
  Forall (fun item => stringOrFalsy (Item.category item)) items ->
  forall acc, NoDup acc ->
  exists categories,
    fold_left categoryStep items (Normal acc) = Normal categories
    /\ NoDup categories
    /\ forall c, In c categories
                 <-> In c acc
                     \/ exists item, In item items
                                     /\ Item.category item = JStr c
                                     /\ trim c <> "".
Proof.
  induction 1 as [|item items Hi _ IH]; intros acc Hacc.
  - exists acc. simpl. repeat split; auto.
    + intros [H | [item [[] _]]]. exact H.
  - cbn [fold_left].
    assert (Hstep : exists acc',
               categoryStep (Normal acc) item = Normal acc'
               /\ NoDup acc'
               /\ forall c, In c acc'
                            <-> In c acc
                                \/ (Item.category item = JStr c /\ trim c <> "")).
    { destruct Hi as [Hf | [s Hs]].
      - destruct (categoryStep_falsy acc item Hf) as [E Hblank].
        exists acc. split; [exact E|]. split; [exact Hacc|].
        intros c. split; [auto|].
        intros [H | [H Ht]]; [exact H|].
        exfalso. apply Ht. exact (Hblank c H).
      - unfold categoryStep. simpl. rewrite Hs.
        destruct (negb (s =? "") && negb (trim s =? "")) eqn:E.
        + exists (setAdd s acc). split; [reflexivity|].
          split; [apply setAdd_NoDup; exact Hacc|].
          intros c. rewrite setAdd_In.
          apply andb_true_iff in E. destruct E as [_ E].
          apply negb_true_iff, String.eqb_neq in E.
          split.
          * intros [H | ->]; [left; exact H | right; split; auto].
          * intros [H | [H Ht]]; [left; exact H|].
            injection H as ->. right. reflexivity.
        + exists acc. repeat split; auto.
          intros [H | [H Ht]]; [exact H|].
          injection H as ->. exfalso.
          apply andb_false_iff in E. destruct E as [E | E];
            apply negb_false_iff, String.eqb_eq in E.
          * subst. apply Ht. reflexivity.
          * contradiction. }
    destruct Hstep as (acc' & Hstep & Hnd & Hin).
    rewrite Hstep.
    destruct (IH acc' Hnd) as (cats & Hfold & Hcn & Hcin).
    exists cats. split; [exact Hfold|]. split; [exact Hcn|].
    intros c. rewrite Hcin, Hin. split.
    + intros [[H | [Hc Ht]] | [it [Hit Hrest]]].
      * left. exact H.
      * right. exists item. split; [left; reflexivity | auto].
      * right. exists it. split; [right; exact Hit | exact Hrest].
    + intros [H | [it [[<- | Hit] Hrest]]].
      * left. left. exact H.
      * left. right. exact Hrest.
      * right. exists it. split; assumption.
Qed.

(** X23. The category buttons of the filter menu: when every item's
    category is a string or falsy, the set built by
    [populateFilterCategories] has no duplicates and holds exactly the
    category strings of the collection that are not blank. *)
Theorem collectCategories_distinct_nonblank (items : list LibraryItem) :
  Forall (fun item => stringOrFalsy (Item.category item)) items ->
  exists categories,
    collectCategories items = Normal categories
    /\ NoDup categories
    /\ forall c, In c categories
                 <-> exists item, In item items
                                  /\ Item.category item = JStr c
                                  /\ trim c <> "".
Proof.
  intros H.
  destruct (collectCategories_from items H [] (NoDup_nil _))
    as (cats & Hf & Hn & Hin).
  exists cats. split; [exact Hf|]. split; [exact Hn|].
  intros c. rewrite Hin. simpl. tauto.
Qed.

Lemma collectCategories_distinct_nonblank_witness :
  exists categories,
    collectCategories [dune; loadedRow; dune; zeroRated] = Normal categories
    /\ NoDup categories
    /\ forall c, In c categories
                 <-> exists item, In item [dune; loadedRow; dune; zeroRated]
                                  /\ Item.category item = JStr c
                                  /\ trim c <> "".
Proof.
  apply (collectCategories_distinct_nonblank [dune; loadedRow; dune; zeroRated]).
  repeat (constructor; [right; eexists; reflexivity|]). constructor.
Defined.

Lemma guardedLowerIncludes_ready (field : jsval) (searchTerm : string) :
  stringOrFalsy field ->
  exists b, guardedLowerIncludes field searchTerm = Normal b.
Proof.
  unfold guardedLowerIncludes. intros [Hf | [s ->]].
  - rewrite Hf. eauto.
  - destruct (truthy (JStr s)); simpl; eauto.
Qed.

Lemma addModalCallback_ready (query : string) (item : LibraryItem) :
  addModalReady item -> exists b, addModalCallback query item = Normal b.
Proof.
  intros ([t Ht] & Ha & Hc). unfold addModalCallback. rewrite Ht. simpl.
  destruct (includes (toLowerCase t) (toLowerCase query)); simpl; [eauto|].
  destruct (guardedLowerIncludes_ready _ (toLowerCase query) Ha) as [b ->].
  simpl. destruct b; [eauto|].
  exact (guardedLowerIncludes_ready _ (toLowerCase query) Hc).
Qed.

Lemma filterM_sub {A : Type} (pred : A -> Completion.t bool) (xs r : list A) :
  filterM pred xs = Normal r -> incl r xs.
Proof.
  revert r. induction xs as [|x xs IH]; simpl; intros r H.
  - injection H as <-. apply incl_refl.
  - destruct (pred x) as [keep|]; [|discriminate]. simpl in H.
    destruct (filterM pred xs) as [r'|]; [|discriminate]. simpl in H.
    injection H as <-. specialize (IH r' eq_refl).
    destruct keep.
    + intros y [<- | Hy]; [left; reflexivity | right; exact (IH y Hy)].
    + intros y Hy. right. exact (IH y Hy).
Qed.

Lemma filterM_ready {A : Type} (pred : A -> Completion.t bool) (xs : list A) :
  Forall (fun x => exists b, pred x = Normal b) xs ->
  exists r, filterM pred xs = Normal r.
Proof.
  induction 1 as [|x xs [b Hb] _ [r IH]]; simpl.
  - eauto.
  - rewrite Hb, IH. simpl. eauto.
Qed.

(** X24. The library part of the add-modal search returns normally even
    when author or category is missing, as long as every title is a
    string (it guards those two fields, unlike [performSearch]); it gives
    at most five items, all taken from the collection. *)
Theorem existingResults_guarded (query : string) (items : list LibraryItem) :
  Forall addModalReady items ->
  exists results,
    existingResults query items = Normal results
    /\ (List.length results <= 5)%nat
    /\ incl results items.
Proof.
  intros Hall. unfold existingResults.
  destruct (filterM_ready (addModalCallback query) items) as [r Hr].
  { eapply Forall_impl; [|exact Hall].
    intros item Hi. exact (addModalCallback_ready query item Hi). }
  rewrite Hr. simpl. exists (firstn 5 r). split; [reflexivity|]. split.
  - apply firstn_le_length.
  - intros y Hy. apply (filterM_sub _ _ _ Hr).
    rewrite <- (firstn_skipn 5 r). apply in_or_app. left. exact Hy.
Qed.

Lemma existingResults_guarded_witness :
  exists results,
    existingResults "habits" [dune; noAuthor] = Normal results
    /\ (List.length results <= 5)%nat
    /\ incl results [dune; noAuthor].
Proof.
  apply (existingResults_guarded "habits" [dune; noAuthor]).
  repeat (constructor;
          [unfold addModalReady, stringOrFalsy; simpl;
           repeat split;
           first [ eexists; reflexivity
                 | left; reflexivity
                 | right; eexists; reflexivity ]|]).
  constructor.
Defined.

Lemma or_else_string (v : jsval) (fallback : string) :
  stringOrFalsy v -> exists s, or_else v (JStr fallback) = JStr s.
Proof.
  unfold or_else. intros [Hf | [s ->]].
  - rewrite Hf. eauto.
  - destruct (truthy (JStr s)); eauto.
Qed.

Lemma fromRow_textFields (row : Row.t) :
  rowReady row -> textFieldsAreStrings (fromRow row).
Proof.
  intros ([t Ht] & [y Hy] & Ha & Hc).
  destruct (or_else_string _ "" Ha) as [a Ea].
  destruct (or_else_string _ "" Hc) as [c Ec].
  exists t, a, c, y. unfold fromRow. simpl. auto.
Qed.

(** X25. A collection loaded from the database never makes the library
    search throw: [loadLibraryData] replaces a null author or category by
    the empty string, so with title and type present every item has its
    four text fields. *)
Theorem performSearch_completes_on_loaded_rows
        (rows : list Row.t) (searchTerm : string) (p : Page) :
  Forall rowReady rows ->
  libraryItems p = map fromRow rows ->
  completes (performSearch searchTerm p) = true.
Proof.
  intros Hrows Hitems.
  apply SearchFacts.performSearch_completes_on_strings.
  rewrite Hitems. apply Forall_forall. intros item Hin.
  apply in_map_iff in Hin. destruct Hin as [row [<- Hrow]].
  apply fromRow_textFields.
  rewrite Forall_forall in Hrows. exact (Hrows row Hrow).
Qed.

Lemma performSearch_completes_on_loaded_rows_witness :
  completes
    (performSearch "sapiens"
       (page (map fromRow
                [Row.mk (JStr "6f1c") (JStr "Sapiens") JNull (JStr "book")
                        JNull JNull JNull JNull JNull JNull JNull])
             allFilters))
  = true.
Proof.
  apply (performSearch_completes_on_loaded_rows
           [Row.mk (JStr "6f1c") (JStr "Sapiens") JNull (JStr "book")
                   JNull JNull JNull JNull JNull JNull JNull]
           "sapiens").
  - constructor; [|constructor].
    unfold rowReady, stringOrFalsy. simpl.
    repeat split; first [eexists; reflexivity | left; reflexivity].
  - reflexivity.
Defined.

End CollectionFacts.

(* ================================================================= *)
(** ** More on ISBN selection *)

Module IsbnMore.
Import JS.
Import Library.
Import Samples.

(** X26. The isbn [transformResults] gives is always truthy: an
    identifier that is not empty, or the text 'No ISBN'; never null,
    undefined or the empty string. *)
Theorem transformResults_isbn_truthy
        (industryIdentifiers : option (list IndustryIdentifier)) :
  truthy (transformResults_isbn industryIdentifiers) = true.
Proof.
  unfold transformResults_isbn, or_else.
  destruct (truthy (optIdentifier "ISBN_13" industryIdentifiers)) eqn:E1;
    [exact E1|].
  destruct (truthy (optIdentifier "ISBN_10" industryIdentifiers)) eqn:E2;
    [exact E2 | reflexivity].
Qed.

(** X27. With no ISBN_13 and no ISBN_10 entry, and likewise with no
    identifier array at all, [extractISBN] returns null and
    [transformResults] returns 'No ISBN'. *)
Theorem no_isbn_entry (ids : list IndustryIdentifier) :
  noneOfKind "ISBN_13" ids ->
  noneOfKind "ISBN_10" ids ->
  GoogleBooksService.extractISBN (Some ids) = JNull
  /\ transformResults_isbn (Some ids) = JStr "No ISBN"
  /\ GoogleBooksService.extractISBN None = JNull
  /\ transformResults_isbn None = JStr "No ISBN".
Proof.
  intros H13 H10.
  apply IsbnFacts.findIdentifier_none in H13, H10.
  unfold GoogleBooksService.extractISBN, transformResults_isbn, optIdentifier.
  rewrite H13, H10. repeat split.
Qed.

Lemma no_isbn_entry_witness :
  GoogleBooksService.extractISBN
    (Some [{| id_type := JStr "OTHER"; identifier := JStr "OCLC:1234" |}])
  = JNull
  /\ transformResults_isbn
       (Some [{| id_type := JStr "OTHER"; identifier := JStr "OCLC:1234" |}])
     = JStr "No ISBN"
  /\ GoogleBooksService.extractISBN None = JNull
  /\ transformResults_isbn None = JStr "No ISBN".
Proof.
  apply (no_isbn_entry
           [{| id_type := JStr "OTHER"; identifier := JStr "OCLC:1234" |}]);
    (constructor; [discriminate | constructor]).
Defined.

End IsbnMore.
